(** * internet_status: the ping response parser, the ping classifier and
      the log aggregator

    Shallow embedding of [src/ping.py] (class [Ping]) and of
    [src/log_parser.py] (class [LogParser]).

    - Python [str] values are [string]s; a character is a code point
      below 256 (the Latin-1 range), so the two line separators U+2028
      and U+2029 lie outside the strings considered here.
    - Python [int] is [Z]; Python [float] is an IEEE 754 binary64 number,
      [spec_float] with precision 53 and maximal exponent 1024.
    - A [dict] is an association list kept in insertion order.
    - A call that can raise returns a [result]: [Ok v] or [Raise e].
    - The modules [src.constants] and [src.sec_constants] are not part of
      the sources at hand: their values are the fields of the record
      [constants], over which every definition is parameterised. *)

From Stdlib Require Import String Ascii List ZArith Bool Lia.
From Stdlib Require Import Floats.SpecFloat.
Import ListNotations.

Local Open Scope string_scope.
Local Open Scope Z_scope.

(* ===================================================================== *)
(** * The Python runtime the two classes rely on *)
(* ===================================================================== *)

Module Py.

(** ** Exceptions *)

Inductive exn : Type :=
| IndexError
| KeyError
| ValueError
| TypeError.

Inductive result (A : Type) : Type :=
| Ok (a : A)
| Raise (e : exn).

Arguments Ok {A} a.
Arguments Raise {A} e.

Definition bind {A B : Type} (c : result A) (k : A -> result B) : result B :=
  match c with
  | Ok a => k a
  | Raise e => Raise e
  end.

Notation "x <- c ;; k" := (bind c (fun x => k))
  (at level 61, c at next level, right associativity).

Definition returns {A : Type} (c : result A) : bool :=
  match c with
  | Ok _ => true
  | Raise _ => false
  end.

(** ** Lists: [l[i]] with Python's negative indices *)

Definition index {A : Type} (l : list A) (i : Z) : result A :=
  let n := Z.of_nat (List.length l) in
  let j := if i <? 0 then i + n else i in
  if (j <? 0) || (n <=? j) then Raise IndexError
  else match nth_error l (Z.to_nat j) with
       | Some a => Ok a
       | None => Raise IndexError
       end.

(** ** Strings *)

(** [needle in hay] *)
Fixpoint contains (needle hay : string) : bool :=
  String.prefix needle hay
  || match hay with
     | EmptyString => false
     | String _ hay' => contains needle hay'
     end.

(** [s.split(sep)] for a separator of one character, the only kind the
    sources pass: every occurrence of [sep] ends a field, and the result
    always has a last field (possibly empty). *)
Fixpoint split (sep : ascii) (s : string) : list string :=
  match s with
  | EmptyString => [EmptyString]
  | String c s' =>
      if Ascii.eqb c sep then EmptyString :: split sep s'
      else match split sep s' with
           | field :: fields => String c field :: fields
           | [] => [String c EmptyString]
           end
  end.

Definition LF : ascii := "010"%char.
Definition CR : ascii := "013"%char.

(** The line boundaries of [str.splitlines]: LF, VT, FF, CR, FS, GS, RS
    and NEL (CR LF counts once, see [splitlines]). *)
Definition is_linebreak (c : ascii) : bool :=
  match N_of_ascii c with
  | 10 | 11 | 12 | 13 | 28 | 29 | 30 | 133 => true
  | _ => false
  end%N.

(** [s.splitlines()]: the lines without their boundaries; no empty last
    line after a final boundary, and no line at all for the empty string. *)
Fixpoint splitlines (s : string) : list string :=
  match s with
  | EmptyString => []
  | String c s' =>
      if is_linebreak c then
        match s' with
        | String c' s'' =>
            if Ascii.eqb c CR && Ascii.eqb c' LF
            then EmptyString :: splitlines s''
            else EmptyString :: splitlines s'
        | EmptyString => [EmptyString]
        end
      else match splitlines s' with
           | line :: lines => String c line :: lines
           | [] => [String c EmptyString]
           end
  end.

(** ** Numbers from strings: [int(s)] and [float(s)] *)

(** The white space [int] and [float] strip from both ends: TAB, LF, VT,
    FF, CR, space, and (turned into a space beforehand) NEL and NBSP. *)
Definition is_space (c : ascii) : bool :=
  match N_of_ascii c with
  | 9 | 10 | 11 | 12 | 13 | 32 | 133 | 160 => true
  | _ => false
  end%N.

Fixpoint lstrip (s : string) : string :=
  match s with
  | EmptyString => EmptyString
  | String c s' => if is_space c then lstrip s' else s
  end.

Fixpoint rstrip (s : string) : string :=
  match s with
  | EmptyString => EmptyString
  | String c s' =>
      match rstrip s' with
      | EmptyString => if is_space c then EmptyString else String c EmptyString
      | t => String c t
      end
  end.

Definition strip (s : string) : string := rstrip (lstrip s).

Definition digit_value (c : ascii) : option Z :=
  let n := Z.of_N (N_of_ascii c) in
  if (48 <=? n) && (n <=? 57) then Some (n - 48) else None.

Definition is_digit (c : ascii) : bool :=
  match digit_value c with
  | Some _ => true
  | None => false
  end.

(** An optional sign: [(negative, rest)]. *)
Definition take_sign (s : string) : bool * string :=
  match s with
  | String "-" s' => (true, s')
  | String "+" s' => (false, s')
  | _ => (false, s)
  end.

(** Decimal digits, where one underscore may stand between two digits.
    [after_digit] tells whether the character just read was a digit. *)
Fixpoint int_digits (s : string) (acc : Z) (after_digit : bool) : option Z :=
  match s with
  | EmptyString => if after_digit then Some acc else None
  | String c s' =>
      match digit_value c with
      | Some d => int_digits s' (10 * acc + d) true
      | None =>
          if Ascii.eqb c "_" && after_digit then int_digits s' acc false
          else None
      end
  end.

(** [int(s)], base ten: white space, an optional sign, digits. The
    interpreter's limit on the number of digits is a setting of the
    interpreter ([sys.set_int_max_str_digits]) and is taken as off. *)
Definition int (s : string) : result Z :=
  let (negative, digits) := take_sign (strip s) in
  match int_digits digits 0 false with
  | Some n => Ok (if negative then - n else n)
  | None => Raise ValueError
  end.

(** ** [float(s)] *)

Definition prec : Z := 53.
Definition emax : Z := 1024.

(** The binary64 number nearest to [m * 10 ^ e] (ties to even), with the
    sign [negative]; [m] is not negative. *)
Definition float_of_decimal (negative : bool) (m e : Z) : spec_float :=
  match m with
  | Zpos p =>
      if 0 <=? e
      then binary_round prec emax negative (Z.to_pos (Zpos p * 10 ^ e)) 0
      else SFdiv prec emax (S754_finite negative p 0)
                           (S754_finite false (Z.to_pos (10 ^ (- e))) 0)
  | _ => S754_zero negative
  end.

(** An underscore is accepted only between two digits. *)
Fixpoint underscores_ok (s : string) (after_digit : bool) : bool :=
  match s with
  | EmptyString => true
  | String c s' =>
      if Ascii.eqb c "_" then
        after_digit
        && match s' with
           | String c' _ => is_digit c'
           | EmptyString => false
           end
        && underscores_ok s' false
      else underscores_ok s' (is_digit c)
  end.

Fixpoint remove_underscores (s : string) : string :=
  match s with
  | EmptyString => EmptyString
  | String c s' =>
      if Ascii.eqb c "_" then remove_underscores s'
      else String c (remove_underscores s')
  end.

(** The leading digits of [s] and what follows them. *)
Fixpoint take_digits (s : string) : string * string :=
  match s with
  | EmptyString => (EmptyString, EmptyString)
  | String c s' =>
      if is_digit c
      then let (digits, rest) := take_digits s' in (String c digits, rest)
      else (EmptyString, s)
  end.

Fixpoint digits_value (s : string) (acc : Z) : Z :=
  match s with
  | EmptyString => acc
  | String c s' =>
      match digit_value c with
      | Some d => digits_value s' (10 * acc + d)
      | None => acc
      end
  end.

Definition to_lower (c : ascii) : ascii :=
  let n := N_of_ascii c in
  if ((65 <=? n) && (n <=? 90))%N then ascii_of_N (n + 32) else c.

Fixpoint lower (s : string) : string :=
  match s with
  | EmptyString => EmptyString
  | String c s' => String (to_lower c) (lower s')
  end.

(** An exponent part: nothing, or [e] or [E], an optional sign and at
    least one digit. *)
Definition exponent (s : string) : option Z :=
  match s with
  | EmptyString => Some 0
  | String c s' =>
      if Ascii.eqb (to_lower c) "e" then
        let (negative, s'') := take_sign s' in
        match take_digits s'' with
        | (String d ds, EmptyString) =>
            let n := digits_value (String d ds) 0 in
            Some (if negative then - n else n)
        | _ => None
        end
      else None
  end.

(** An unsigned decimal number: digits, an optional point and digits (at
    least one digit in all), an optional exponent. The result [(m, e)]
    stands for [m * 10 ^ e]. *)
Definition decimal (s : string) : option (Z * Z) :=
  let (int_part, s1) := take_digits s in
  let (frac_part, s2) :=
    match s1 with
    | String "." s1' => take_digits s1'
    | _ => (EmptyString, s1)
    end in
  match int_part ++ frac_part with
  | EmptyString => None
  | digits =>
      match exponent s2 with
      | Some e =>
          Some (digits_value digits 0, e - Z.of_nat (String.length frac_part))
      | None => None
      end
  end.

(** [float(s)]: white space, an optional sign, then [inf], [infinity] or
    [nan] in any case, or a decimal number, rounded to the nearest
    binary64 number; a number too large becomes an infinity. *)
Definition float (s : string) : result spec_float :=
  let t := strip s in
  if underscores_ok t false then
    let (negative, body) := take_sign (remove_underscores t) in
    let word := lower body in
    if String.eqb word "inf" || String.eqb word "infinity"
    then Ok (S754_infinity negative)
    else if String.eqb word "nan" then Ok S754_nan
    else match decimal body with
         | Some (m, e) => Ok (float_of_decimal negative m e)
         | None => Raise ValueError
         end
  else Raise ValueError.

(** ** Values stored in the dictionaries *)

Inductive pyval : Type :=
| VNone
| VBool (b : bool)
| VInt (n : Z)
| VFloat (f : spec_float)
| VStr (s : string).

(** Truth value, as [not v] and [if v] test it. *)
Definition truthy (v : pyval) : bool :=
  match v with
  | VNone => false
  | VBool b => b
  | VInt n => negb (n =? 0)
  | VFloat (S754_zero _) => false
  | VFloat _ => true
  | VStr s => negb (String.eqb s "")
  end.

Inductive pynum : Type :=
| NumInt (n : Z)
| NumFloat (f : spec_float).

Definition as_number (v : pyval) : option pynum :=
  match v with
  | VBool b => Some (NumInt (if b then 1 else 0))
  | VInt n => Some (NumInt n)
  | VFloat f => Some (NumFloat f)
  | _ => None
  end.

(** An integer against a float, by their exact values. *)
Definition compare_int_float (n : Z) (f : spec_float) : option comparison :=
  match f with
  | S754_nan => None
  | S754_infinity s => Some (if s then Gt else Lt)
  | S754_zero _ => Some (n ?= 0)
  | S754_finite s m e =>
      let v := if s then Zneg m else Zpos m in
      Some (if 0 <=? e then n ?= v * 2 ^ e else n * 2 ^ (- e) ?= v)
  end.

Definition num_compare (a b : pynum) : option comparison :=
  match a, b with
  | NumInt x, NumInt y => Some (x ?= y)
  | NumFloat x, NumFloat y => SFcompare x y
  | NumInt x, NumFloat y => compare_int_float x y
  | NumFloat x, NumInt y => option_map CompOpp (compare_int_float y x)
  end.

(** [a > b]: numbers by value (false when one is a NaN), strings by code
    points; anything else is a [TypeError]. *)
Definition gt (a b : pyval) : result bool :=
  match as_number a, as_number b with
  | Some x, Some y =>
      Ok match num_compare x y with
         | Some Gt => true
         | _ => false
         end
  | _, _ =>
      match a, b with
      | VStr s, VStr t => Ok (String.ltb t s)
      | _, _ => Raise TypeError
      end
  end.

(** ** Dictionaries, in insertion order *)

Definition dict (V : Type) : Type := list (string * V).

Fixpoint find {V : Type} (k : string) (d : dict V) : option V :=
  match d with
  | [] => None
  | (k', v) :: d' => if String.eqb k k' then Some v else find k d'
  end.

(** [k in d] *)
Definition mem {V : Type} (k : string) (d : dict V) : bool :=
  match find k d with
  | Some _ => true
  | None => false
  end.

(** [d[k]] *)
Definition getitem {V : Type} (d : dict V) (k : string) : result V :=
  match find k d with
  | Some v => Ok v
  | None => Raise KeyError
  end.

(** [d[k] = v]: a key already there keeps its place. *)
Fixpoint setitem {V : Type} (d : dict V) (k : string) (v : V) : dict V :=
  match d with
  | [] => [(k, v)]
  | (k', v') :: d' =>
      if String.eqb k k' then (k', v) :: d' else (k', v') :: setitem d' k v
  end.

(** The display [{k1: v1, k2: v2, ...}]. *)
Definition literal {V : Type} (items : list (string * V)) : dict V :=
  fold_left (fun d kv => setitem d (fst kv) (snd kv)) items [].

(** ** [for x in l: ...], the body updating a state and possibly raising *)

Fixpoint for_each {S A : Type} (l : list A) (body : S -> A -> result S)
    (s : S) : result S :=
  match l with
  | [] => Ok s
  | a :: l' => s' <- body s a ;; for_each l' body s'
  end.

End Py.

Import Py.

(* ===================================================================== *)
(** * The constants of [src.constants] and [src.sec_constants] *)
(* ===================================================================== *)

(** The names both classes import. The strings are markers, messages and
    dictionary keys; the two thresholds are numbers. *)
Record constants : Type := {
  COMMAND_EXIT_ERROR_MESSAGE : string;
  MAX_ACCEPTABLE_AVERAGE_ROUND_TRIP_TIME : pyval;
  MAX_ACCEPTABLE_PACKET_LOSS : pyval;
  LOCAL_ROUTER_ERROR : string;
  MODEM_ERROR : string;
  PACKET_LOSS_ERROR : string;
  RESOLVE_HOST_ERROR : string;
  ROUND_TRIP_TIME_ERROR : string;
  RESPONSE_KEY_ERROR : string;
  RESPONSE_KEY_HOST : string;
  RESPONSE_KEY_NUM_PACKETS_SENT : string;
  RESPONSE_KEY_PACKET_LOSS_PERCENT : string;
  RESPONSE_KEY_MAX_ROUND_TRIP_TIME : string;
  RESPONSE_KEY_AVERAGE_ROUND_TRIP_TIME : string;
  RESPONSE_KEY_ABLE_TO_RESOLVE_HOST : string;
  LOCAL_ROUTER : string;
  LOGGER_STARTING_LOG : string;
  LOGGER_STATUS_CHECK_RUNNING_MESSAGE : string;
  PARSER_PACKET_LOSS : string;
  PARSER_ROUND_TRIP_TIME : string;
  PARSER_MODEM_DOWN : string;
  PARSER_ROUTER_DOWN : string
}.

(** Modelled from the spec: the values of [src/constants.py] and
    [src/sec_constants.py], which are not among the sources. The failure
    marker is the one the docstring of
    [check_if_ping_executed_successfully] quotes, the response keys are
    those of the docstring of [ping_host_and_return_parsed_response], the
    summary keys are the four categories of the spec's day summary; the
    messages, the banners, the thresholds and the router address are
    sample values. *)
Definition sample_constants : constants := {|
  COMMAND_EXIT_ERROR_MESSAGE := "returned non-zero exit status";
  MAX_ACCEPTABLE_AVERAGE_ROUND_TRIP_TIME := VInt 100;
  MAX_ACCEPTABLE_PACKET_LOSS := VInt 5;
  LOCAL_ROUTER_ERROR := "Unable to reach local router";
  MODEM_ERROR := "Unable to reach modem";
  PACKET_LOSS_ERROR := "Packet loss above acceptable level";
  RESOLVE_HOST_ERROR := "Unable to resolve host";
  ROUND_TRIP_TIME_ERROR := "Round trip time above acceptable level";
  RESPONSE_KEY_ERROR := "error";
  RESPONSE_KEY_HOST := "host";
  RESPONSE_KEY_NUM_PACKETS_SENT := "num_packets_sent";
  RESPONSE_KEY_PACKET_LOSS_PERCENT := "packet_loss_percent";
  RESPONSE_KEY_MAX_ROUND_TRIP_TIME := "max_round_trip_time";
  RESPONSE_KEY_AVERAGE_ROUND_TRIP_TIME := "average_round_trip_time";
  RESPONSE_KEY_ABLE_TO_RESOLVE_HOST := "able_to_resolve_host";
  LOCAL_ROUTER := "192.168.1.1";
  LOGGER_STARTING_LOG := "Starting internet status logger";
  LOGGER_STATUS_CHECK_RUNNING_MESSAGE := "Running internet status check";
  PARSER_PACKET_LOSS := "packet_loss";
  PARSER_ROUND_TRIP_TIME := "rtt";
  PARSER_MODEM_DOWN := "modem";
  PARSER_ROUTER_DOWN := "router"
|}.

(** The seven keys of a parsed response are pairwise different. *)
Definition response_keys (c : constants) : list string :=
  [ RESPONSE_KEY_HOST c; RESPONSE_KEY_ABLE_TO_RESOLVE_HOST c;
    RESPONSE_KEY_ERROR c; RESPONSE_KEY_NUM_PACKETS_SENT c;
    RESPONSE_KEY_PACKET_LOSS_PERCENT c;
    RESPONSE_KEY_AVERAGE_ROUND_TRIP_TIME c;
    RESPONSE_KEY_MAX_ROUND_TRIP_TIME c ].

Fixpoint distinct (l : list string) : bool :=
  match l with
  | [] => true
  | k :: l' => negb (existsb (String.eqb k) l') && distinct l'
  end.

(* ===================================================================== *)
(** * [src/ping.py], class [Ping] *)
(* ===================================================================== *)

Module Ping.
Section WithConstants.

Context (c : constants).

(** [parse_ping_summary_and_update_parsed_ping_dict]; the dictionary it
    updates is returned. *)
Definition parse_ping_summary_and_update_parsed_ping_dict
    (parsed_ping_dict : dict pyval) (ping_summary : string)
    : result (dict pyval) :=
  let split_ping_summary := split "," ping_summary in
  packets_transmitted_data <- index split_ping_summary 0 ;;
  packets_transmitted <- index (split " " packets_transmitted_data) 0 ;;
  num_packets_sent <- int packets_transmitted ;;
  let parsed_ping_dict :=
    setitem parsed_ping_dict (RESPONSE_KEY_NUM_PACKETS_SENT c)
            (VInt num_packets_sent) in
  for_each split_ping_summary
    (fun parsed_ping_dict metric =>
       if contains "packet loss" metric then
         let packet_loss_data := metric in
         packet_loss <- index (split "%" packet_loss_data) 0 ;;
         packet_loss_percent <- float packet_loss ;;
         Ok (setitem parsed_ping_dict (RESPONSE_KEY_PACKET_LOSS_PERCENT c)
                     (VFloat packet_loss_percent))
       else Ok parsed_ping_dict)
    parsed_ping_dict.

(** [parse_ping_timing_and_update_parsed_ping_dict] *)
Definition parse_ping_timing_and_update_parsed_ping_dict
    (parsed_ping_dict : dict pyval) (ping_timing : string)
    : result (dict pyval) :=
  let split_ping_timing := split "=" ping_timing in
  timings <- index split_ping_timing 1 ;;
  let split_ping_timing := split "/" timings in
  average <- index split_ping_timing 1 ;;
  average_round_trip_time <- float average ;;
  let parsed_ping_dict :=
    setitem parsed_ping_dict (RESPONSE_KEY_AVERAGE_ROUND_TRIP_TIME c)
            (VFloat average_round_trip_time) in
  maximum <- index split_ping_timing 2 ;;
  max_round_trip_time <- float maximum ;;
  Ok (setitem parsed_ping_dict (RESPONSE_KEY_MAX_ROUND_TRIP_TIME c)
              (VFloat max_round_trip_time)).

(** [check_if_ping_executed_successfully] *)
Definition check_if_ping_executed_successfully
    (split_ping_response : list string) : result bool :=
  first_line <- index split_ping_response 0 ;;
  if contains (COMMAND_EXIT_ERROR_MESSAGE c) first_line then Ok false
  else Ok true.

(** [determine_if_able_to_resolve_host] *)
Definition determine_if_able_to_resolve_host
    (url : string) (split_ping_response : list string) : bool :=
  if Z.of_nat (List.length split_ping_response) =? 1 then false else true.

(** [parse_ping_response] *)
Definition parse_ping_response (url response : string)
    : result (dict pyval) :=
  let parsed_ping_dict :=
    literal [ (RESPONSE_KEY_HOST c, VStr url);
              (RESPONSE_KEY_ABLE_TO_RESOLVE_HOST c, VBool false);
              (RESPONSE_KEY_ERROR c, VNone) ] in
  let split_ping_response := splitlines response in
  ping_executed_successfully <-
    check_if_ping_executed_successfully split_ping_response ;;
  if negb ping_executed_successfully then
    if String.eqb url (LOCAL_ROUTER c)
    then Ok (setitem parsed_ping_dict (RESPONSE_KEY_ERROR c)
                     (VStr (LOCAL_ROUTER_ERROR c)))
    else Ok (setitem parsed_ping_dict (RESPONSE_KEY_ERROR c)
                     (VStr (MODEM_ERROR c)))
  else
    let ping_was_able_to_resolve_host :=
      determine_if_able_to_resolve_host url split_ping_response in
    if negb ping_was_able_to_resolve_host then Ok parsed_ping_dict
    else
      let parsed_ping_dict :=
        setitem parsed_ping_dict (RESPONSE_KEY_ABLE_TO_RESOLVE_HOST c)
                (VBool true) in
      ping_summary_response <- index split_ping_response (-2) ;;
      parsed_ping_dict <-
        parse_ping_summary_and_update_parsed_ping_dict
          parsed_ping_dict ping_summary_response ;;
      ping_timing_response <- index split_ping_response (-1) ;;
      parse_ping_timing_and_update_parsed_ping_dict
        parsed_ping_dict ping_timing_response.

(** [check_if_ping_resolve_host] *)
Definition check_if_ping_resolve_host
    (parsed_host_response : dict pyval) : result pyval :=
  getitem parsed_host_response (RESPONSE_KEY_ABLE_TO_RESOLVE_HOST c).

(** [check_if_ping_packet_loss_acceptable] *)
Definition check_if_ping_packet_loss_acceptable
    (parsed_host_response : dict pyval) : result bool :=
  packet_loss_percent <-
    getitem parsed_host_response (RESPONSE_KEY_PACKET_LOSS_PERCENT c) ;;
  too_high <- gt packet_loss_percent (MAX_ACCEPTABLE_PACKET_LOSS c) ;;
  if too_high then Ok false else Ok true.

(** [check_if_ping_round_trip_time_acceptable] *)
Definition check_if_ping_round_trip_time_acceptable
    (parsed_host_response : dict pyval) : result bool :=
  average_round_trip_time <-
    getitem parsed_host_response (RESPONSE_KEY_AVERAGE_ROUND_TRIP_TIME c) ;;
  too_high <-
    gt average_round_trip_time (MAX_ACCEPTABLE_AVERAGE_ROUND_TRIP_TIME c) ;;
  if too_high then Ok false else Ok true.

(** [check_if_ping_was_successful]; the dictionary it updates is
    returned. *)
Definition check_if_ping_was_successful
    (parsed_host_response : dict pyval) : result (dict pyval) :=
  resolved <- check_if_ping_resolve_host parsed_host_response ;;
  if negb (truthy resolved) then
    Ok (setitem parsed_host_response (RESPONSE_KEY_ERROR c)
                (VStr (RESOLVE_HOST_ERROR c)))
  else
    packet_loss_acceptable <-
      check_if_ping_packet_loss_acceptable parsed_host_response ;;
    if negb packet_loss_acceptable then
      Ok (setitem parsed_host_response (RESPONSE_KEY_ERROR c)
                  (VStr (PACKET_LOSS_ERROR c)))
    else
      round_trip_time_acceptable <-
        check_if_ping_round_trip_time_acceptable parsed_host_response ;;
      if negb round_trip_time_acceptable then
        Ok (setitem parsed_host_response (RESPONSE_KEY_ERROR c)
                    (VStr (ROUND_TRIP_TIME_ERROR c)))
      else
        Ok (setitem parsed_host_response (RESPONSE_KEY_ERROR c) (VStr "")).

(** [ping_host_and_return_parsed_response]. The method [ping_host] runs
    the ping command; what it returns is the argument [ping_host] here.
    The verbose log of the response is not part of the result. *)
Definition ping_host_and_return_parsed_response
    (ping_host : string -> Z -> string) (url : string) (num_pings : Z)
    : result (dict pyval) :=
  let response := ping_host url num_pings in
  parsed_ping_dict <- parse_ping_response url response ;;
  error <- getitem parsed_ping_dict (RESPONSE_KEY_ERROR c) ;;
  if negb (truthy error) then check_if_ping_was_successful parsed_ping_dict
  else Ok parsed_ping_dict.

End WithConstants.
End Ping.

(* ===================================================================== *)
(** * [src/log_parser.py], class [LogParser] *)
(* ===================================================================== *)

Module LogParser.
Section WithConstants.

Context (c : constants).

(** The summary of one day: a count for each summary key. *)
Definition day_summary : Type := dict Z.

(** [internet_status_summary[log_date][internet_status_summary_key] += 1] *)
Definition increment (internet_status_summary : dict day_summary)
    (log_date internet_status_summary_key : string)
    : result (dict day_summary) :=
  day <- getitem internet_status_summary log_date ;;
  count <- getitem day internet_status_summary_key ;;
  Ok (setitem internet_status_summary log_date
              (setitem day internet_status_summary_key (count + 1))).

Definition log_message_error_to_summary_key_map : dict string :=
  literal [ (PACKET_LOSS_ERROR c, PARSER_PACKET_LOSS c);
            (ROUND_TRIP_TIME_ERROR c, PARSER_ROUND_TRIP_TIME c);
            (MODEM_ERROR c, PARSER_MODEM_DOWN c);
            (LOCAL_ROUTER_ERROR c, PARSER_ROUTER_DOWN c) ].

(** The body of the loop over the lines of [parse_log]. *)
Definition parse_log_line (internet_status_summary : dict day_summary)
    (line : string) : result (dict day_summary) :=
  if contains (LOGGER_STARTING_LOG c) line
     || contains (LOGGER_STATUS_CHECK_RUNNING_MESSAGE c) line
  then Ok internet_status_summary
  else
    let split_message := split "-" line in
    log_date_time <- index split_message 0 ;;
    log_date <- index (split "@" log_date_time) 0 ;;
    let internet_status_summary :=
      if negb (mem log_date internet_status_summary) then
        setitem internet_status_summary log_date
          (literal [ (PARSER_PACKET_LOSS c, 0);
                     (PARSER_ROUND_TRIP_TIME c, 0);
                     (PARSER_MODEM_DOWN c, 0);
                     (PARSER_ROUTER_DOWN c, 0) ])
      else internet_status_summary in
    log_message <- index split_message 1 ;;
    for_each log_message_error_to_summary_key_map
      (fun internet_status_summary item =>
         let '(error, internet_status_summary_key) := item in
         if contains error log_message then
           increment internet_status_summary log_date
                     internet_status_summary_key
         else Ok internet_status_summary)
      internet_status_summary.

(** [parse_log] *)
Definition parse_log (log_file_string : string) : result (dict day_summary) :=
  let internet_status_summary : dict day_summary := [] in
  for_each (splitlines log_file_string) parse_log_line
           internet_status_summary.

End WithConstants.
End LogParser.

(* ===================================================================== *)
(** * Vocabulary of the statements *)
(* ===================================================================== *)

Definition newline : string := String LF EmptyString.

(** The first line of a text (the empty string when it has no line). *)
Definition first_line (text : string) : string := hd "" (splitlines text).

(** A parsed response with the given values under the seven keys, in the
    order in which [parse_ping_response] inserts them. *)
Definition parsed_response (c : constants)
    (host able error num loss average maximum : pyval) : dict pyval :=
  [ (RESPONSE_KEY_HOST c, host);
    (RESPONSE_KEY_ABLE_TO_RESOLVE_HOST c, able);
    (RESPONSE_KEY_ERROR c, error);
    (RESPONSE_KEY_NUM_PACKETS_SENT c, num);
    (RESPONSE_KEY_PACKET_LOSS_PERCENT c, loss);
    (RESPONSE_KEY_AVERAGE_ROUND_TRIP_TIME c, average);
    (RESPONSE_KEY_MAX_ROUND_TRIP_TIME c, maximum) ].

(** The pieces of the summary line and of the timing line that
    [parse_ping_summary_and_update_parsed_ping_dict] and
    [parse_ping_timing_and_update_parsed_ping_dict] convert. *)

(** The text before the first space of the first comma segment. *)
Definition leading_token (summary : string) : string :=
  hd "" (split " " (hd "" (split "," summary))).

(** The comma segments that contain [packet loss]. *)
Definition loss_clauses (summary : string) : list string :=
  filter (contains "packet loss") (split "," summary).

(** The text before the first ['%'] of a segment (all of it without). *)
Definition loss_text (metric : string) : string := hd "" (split "%" metric).

(** The ['/'] fields of the text between the first and the second ['=']
    of the timing line; none when the line has no ['=']. *)
Definition timing_fields (timing : string) : list string :=
  match split "=" timing with
  | _ :: timings :: _ => split "/" timings
  | _ => []
  end.

(** Every conversion of the summary line succeeds. *)
Definition summary_parses (summary : string) : bool :=
  returns (int (leading_token summary))
  && forallb (fun metric => returns (float (loss_text metric)))
             (loss_clauses summary).

(** The timing line has the fields 1 and 2, and they convert. *)
Definition timing_parses (timing : string) : bool :=
  match nth_error (timing_fields timing) 1,
        nth_error (timing_fields timing) 2 with
  | Some average, Some maximum =>
      returns (float average) && returns (float maximum)
  | _, _ => false
  end.

(** The two lines of the scenario. *)
Definition scenario_summary : string :=
  "10 packets transmitted, 10 packets received, 0.0% packet loss".

Definition scenario_timing : string :=
  "round-trip min/avg/max/stddev = 3.084/8.829/11.708/2.290 ms".

(** The lines [parse_log] skips. *)
Definition is_banner (c : constants) (line : string) : bool :=
  contains (LOGGER_STARTING_LOG c) line
  || contains (LOGGER_STATUS_CHECK_RUNNING_MESSAGE c) line.

(** The date key and the message segment the loop of [parse_log] takes
    from a line: [line.split('-')[0].split('@')[0]] and
    [line.split('-')[1]]. *)
Definition fields (line : string) : option (string * string) :=
  match split "-" line with
  | log_date_time :: log_message :: _ =>
      Some (hd "" (split "@" log_date_time), log_message)
  | _ => None
  end.

Definition error_markers (c : constants) : list string :=
  [ PACKET_LOSS_ERROR c; ROUND_TRIP_TIME_ERROR c; MODEM_ERROR c;
    LOCAL_ROUTER_ERROR c ].

Definition summary_keys (c : constants) : list string :=
  [ PARSER_PACKET_LOSS c; PARSER_ROUND_TRIP_TIME c; PARSER_MODEM_DOWN c;
    PARSER_ROUTER_DOWN c ].

(** Four counts: packet loss, round trip time, modem down, router down. *)
Definition counts : Type := (Z * Z * Z * Z)%type.

Definition day_of (c : constants) (n : counts) : LogParser.day_summary :=
  let '(loss, rtt, modem, router) := n in
  [ (PARSER_PACKET_LOSS c, loss); (PARSER_ROUND_TRIP_TIME c, rtt);
    (PARSER_MODEM_DOWN c, modem); (PARSER_ROUTER_DOWN c, router) ].

Definition Z_of_bool (b : bool) : Z := if b then 1 else 0.

(** Which of the four markers a message segment contains, as counts. *)
Definition hits (c : constants) (log_message : string) : counts :=
  ( Z_of_bool (contains (PACKET_LOSS_ERROR c) log_message),
    Z_of_bool (contains (ROUND_TRIP_TIME_ERROR c) log_message),
    Z_of_bool (contains (MODEM_ERROR c) log_message),
    Z_of_bool (contains (LOCAL_ROUTER_ERROR c) log_message) ).

Definition add_counts (n k : counts) : counts :=
  let '(a, b, m, r) := n in
  let '(a', b', m', r') := k in
  (a + a', b + b', m + m', r + r').

(** Every key of [l] differs from [k]; the keys of [l] differ pairwise. *)
Fixpoint all_differ (k : string) (l : list string) : Prop :=
  match l with
  | [] => True
  | k' :: l' =>
      (String.eqb k k' = false /\ String.eqb k' k = false) /\ all_differ k l'
  end.

Fixpoint pairwise (l : list string) : Prop :=
  match l with
  | [] => True
  | k :: l' => all_differ k l' /\ pairwise l'
  end.

(** A line that [parse_log] can process: a banner, or a line with a
    ['-']. *)
Definition separated (c : constants) (line : string) : bool :=
  is_banner c line || contains "-" line.

(** The body of the loop over the comma segments, on a segment that
    contains [packet loss]. *)
Definition loss_body (c : constants) (parsed_ping_dict : dict pyval)
    (metric : string) : result (dict pyval) :=
  packet_loss <- index (split "%" metric) 0 ;;
  packet_loss_percent <- float packet_loss ;;
  Ok (setitem parsed_ping_dict (RESPONSE_KEY_PACKET_LOSS_PERCENT c)
              (VFloat packet_loss_percent)).

(** The dictionary the two lines are parsed into. *)
Definition resolved_dict (c : constants) (url : string) : dict pyval :=
  setitem
    (literal [ (RESPONSE_KEY_HOST c, VStr url);
               (RESPONSE_KEY_ABLE_TO_RESOLVE_HOST c, VBool false);
               (RESPONSE_KEY_ERROR c, VNone) ])
    (RESPONSE_KEY_ABLE_TO_RESOLVE_HOST c) (VBool true).

(** When [parse_ping_response] returns a result: the first line has the
    failure marker, or there is one line only, or the last two lines
    convert. Without any line it does not. *)
Definition parse_returns (c : constants) (response : string) : bool :=
  match splitlines response with
  | [] => false
  | first :: rest =>
      contains (COMMAND_EXIT_ERROR_MESSAGE c) first
      || match rev rest with
         | [] => true
         | timing :: before =>
             summary_parses (hd first before) && timing_parses timing
         end
  end.

(** The counts [n] recorded for [date] in a summary: those of its day,
    or zeros when the date is not there yet. *)
Definition counts_at (c : constants) (s : dict LogParser.day_summary)
    (date : string) (n : counts) : Prop :=
  match find date s with
  | Some day => day = day_of c n
  | None => n = (0, 0, 0, 0)
  end.

(** A line of the log that is no banner, with its date key and with the
    markers its message segment contains. *)
Definition entry (c : constants) (line date : string) (marks : counts)
    : Prop :=
  is_banner c line = false
  /\ exists log_message,
       fields line = Some (date, log_message) /\ hits c log_message = marks.

(** Every day of a summary has a count for each of the four summary
    keys. *)
Definition has_keys (c : constants) (day : LogParser.day_summary) : Prop :=
  forall k, In k (summary_keys c) -> find k day <> None.

Definition days_have_keys (c : constants) (s : dict LogParser.day_summary)
    : Prop :=
  Forall (fun item => has_keys c (snd item)) s.

(** The body of the loop over the markers in [parse_log]. *)
Definition marker_body (c : constants) (log_date log_message : string)
    (internet_status_summary : dict LogParser.day_summary)
    (item : string * string) : result (dict LogParser.day_summary) :=
  let '(error, internet_status_summary_key) := item in
  if contains error log_message then
    LogParser.increment internet_status_summary log_date
                        internet_status_summary_key
  else Ok internet_status_summary.

(** ** Sample inputs *)

(** The report of a ping of two packets, one of them lost. *)
Definition sample_report : string :=
  "PING www.google.com (142.250.72.4): 56 data bytes" ++ newline ++
  newline ++
  "--- www.google.com ping statistics ---" ++ newline ++
  "2 packets transmitted, 1 packets received, 50.0% packet loss" ++ newline ++
  "round-trip min/avg/max/stddev = 1.5/2.5/3.5/0.5 ms" ++ newline.

(** What [str] makes of the exception of a failed ping. *)
Definition sample_failure : string :=
  "Command '['ping', '-c', '10', '-q', '192.168.1.1']' returned non-zero exit status 2.".

(** The one line of a ping that could not resolve its target. *)
Definition sample_unresolved : string :=
  "ping: cannot resolve example.invalid: Unknown host".


(** A parsed response that reports an unresolved host together with a
    packet loss of 50 percent. *)
Definition sample_unresolved_lossy : dict pyval :=
  parsed_response sample_constants (VStr "www.google.com") (VBool false)
    VNone (VInt 2) (VFloat (float_of_decimal false 500 (-1)))
    (VFloat (float_of_decimal false 25 (-1)))
    (VFloat (float_of_decimal false 35 (-1))).

(** A log with a line that has neither ['-'] nor ['@'] between two
    well formed lines. *)
Definition sample_broken_log : string :=
  "06/01/2020@10:00:00-Packet loss above acceptable level" ++ newline ++
  "06/01/2020 10:05:00 Unable to reach modem" ++ newline ++
  "06/01/2020@10:10:00-Unable to reach modem" ++ newline.

(** A line whose marker comes after a second ['-']. *)
Definition sample_dashed_line : string :=
  "06/01/2020@10:00:00-www.google.com - Packet loss above acceptable level".

(** A line with two markers. *)
Definition sample_double_line : string :=
  "06/01/2020@10:00:00-Packet loss above acceptable level, Unable to reach modem".

(** Three lines of one day with the packet loss marker, then one line of
    the next day with the modem marker. *)
Definition sample_log : string :=
  "06/01/2020@10:00:00-Packet loss above acceptable level" ++ newline ++
  "06/01/2020@10:05:00-Packet loss above acceptable level" ++ newline ++
  "06/01/2020@10:10:00-Packet loss above acceptable level" ++ newline ++
  "06/02/2020@10:00:00-Unable to reach modem" ++ newline.

(** ** The log as a list of dated messages *)

(** The date key of a line that is no banner and has a ['-']. *)
Definition line_date (c : constants) (line : string) : option string :=
  if is_banner c line then None
  else match fields line with
       | Some (date, _) => Some date
       | None => None
       end.

(** What a line adds to the counts of [date]: the markers of its message
    segment when it carries this date, nothing otherwise. *)
Definition line_counts (c : constants) (line date : string) : counts :=
  if is_banner c line then (0, 0, 0, 0)
  else match fields line with
       | Some (date', log_message) =>
           if String.eqb date' date then hits c log_message else (0, 0, 0, 0)
       | None => (0, 0, 0, 0)
       end.

(** For each category, how many lines dated [date] have its marker. *)
Fixpoint tally (c : constants) (lines : list string) (date : string)
    : counts :=
  match lines with
  | [] => (0, 0, 0, 0)
  | line :: lines' => add_counts (line_counts c line date) (tally c lines' date)
  end.

(** Some line carries [date]. *)
Definition dated (c : constants) (lines : list string) (date : string)
    : bool :=
  existsb (fun line => match line_date c line with
                       | Some date' => String.eqb date' date
                       | None => false
                       end) lines.

(** The dates of the lines, each at its first place, after the dates
    [seen] already. *)
Fixpoint first_seen (c : constants) (seen : list string)
    (lines : list string) : list string :=
  match lines with
  | [] => seen
  | line :: lines' =>
      match line_date c line with
      | Some date =>
          if existsb (String.eqb date) seen
          then first_seen c seen lines'
          else first_seen c (seen ++ [date]) lines'
      | None => first_seen c seen lines'
      end
  end.

(** ** The two segments of a line *)

(** The text of [s] before its first [sep] (all of [s] when it has no
    [sep]). *)
Fixpoint text_before (sep : ascii) (s : string) : string :=
  match s with
  | EmptyString => EmptyString
  | String ch s' =>
      if Ascii.eqb ch sep then EmptyString
      else String ch (text_before sep s')
  end.

(** The text of [s] after its first [sep], if it has one. *)
Fixpoint text_after (sep : ascii) (s : string) : option string :=
  match s with
  | EmptyString => None
  | String ch s' => if Ascii.eqb ch sep then Some s' else text_after sep s'
  end.

(** The date key of a line: what precedes the first ['@'] in the text
    before the first ['-'] (all of this text when it has no ['@']). *)
Definition date_key (line : string) : string :=
  text_before "@" (text_before "-" line).

(** The message segment of a line: the text between its first and its
    second ['-'] (up to the end of the line when there is no second
    ['-']); none when the line has no ['-']. *)
Definition message_segment (line : string) : option string :=
  option_map (text_before "-") (text_after "-" line).

(** What a line adds to the counts of [date]: for each category, one when
    the line is no banner, has the date key [date] and has the marker of
    the category in its message segment. *)
Definition segment_counts (c : constants) (line date : string) : counts :=
  if is_banner c line then (0, 0, 0, 0)
  else match message_segment line with
       | Some log_message =>
           if String.eqb (date_key line) date then hits c log_message
           else (0, 0, 0, 0)
       | None => (0, 0, 0, 0)
       end.

(** For each category, the number of lines (no banners) with the date key
    [date] whose message segment contains its marker. *)
Fixpoint segment_tally (c : constants) (lines : list string) (date : string)
    : counts :=
  match lines with
  | [] => (0, 0, 0, 0)
  | line :: lines' =>
      add_counts (segment_counts c line date) (segment_tally c lines' date)
  end.

(** Some line that is no banner has the date key [date]. *)
Definition carries (c : constants) (lines : list string) (date : string)
    : bool :=
  existsb (fun line => negb (is_banner c line)
                       && String.eqb (date_key line) date) lines.

(** Two lines that [parse_log] cannot tell apart: both banners or both
    not, with the same date key and the same message segment. *)
Definition same_segments (c : constants) (line line' : string) : Prop :=
  is_banner c line = is_banner c line'
  /\ date_key line = date_key line'
  /\ message_segment line = message_segment line'.

(** [a == b] for two numbers, whatever their types ([5.0 == 5]). *)
Definition number_equal (a b : pyval) : Prop :=
  match as_number a, as_number b with
  | Some x, Some y => num_compare x y = Some Eq
  | _, _ => False
  end.

(** More sample logs. *)

(** A line without ['@'] after a well formed line. *)
Definition sample_no_at_log : string :=
  "06/01/2020@10:00:00-Packet loss above acceptable level" ++ newline ++
  "06/01/2020 10:05:00-Unable to reach modem" ++ newline.

(** A line with two markers, the second one after a second ['-']. *)
Definition sample_split_markers_line : string :=
  "06/01/2020@10:00:00-Packet loss above acceptable level - Unable to reach modem".

(** The line of [sample_dashed_line] with another time and another text
    after its second ['-']. *)
Definition sample_dashed_line' : string :=
  "06/01/2020@23:59:59-www.google.com -Unable to reach modem".

(** A log with the line of two markers between two other lines, and the
    same log without this line. *)
Definition sample_double_log : string :=
  "06/01/2020@09:00:00-Packet loss above acceptable level" ++ newline ++
  sample_double_line ++ newline ++
  "06/02/2020@10:00:00-Unable to reach modem" ++ newline.

Definition sample_double_log_without : string :=
  "06/01/2020@09:00:00-Packet loss above acceptable level" ++ newline ++
  "06/02/2020@10:00:00-Unable to reach modem" ++ newline.

(** Three lines of one day and one line of the next day, the markers
    after a second ['-']. *)
Definition sample_dashed_log : string :=
  "06/01/2020@10:00:00-www.google.com - Packet loss above acceptable level"
    ++ newline ++
  "06/01/2020@10:05:00-www.google.com - Packet loss above acceptable level"
    ++ newline ++
  "06/01/2020@10:10:00-www.google.com - Packet loss above acceptable level"
    ++ newline ++
  "06/02/2020@10:00:00-www.google.com - Unable to reach modem" ++ newline.

(** The diagnosis of a resolved host: too much loss, else too slow, else
    the empty message. *)
Definition diagnosis (c : constants) (high_loss high_rtt : bool) : string :=
  if high_loss then PACKET_LOSS_ERROR c
  else if high_rtt then ROUND_TRIP_TIME_ERROR c
  else "".

(** More sample inputs. *)

(** A report with a clause of errors before the loss clause. *)
Definition sample_summary_errors : string :=
  "10 packets transmitted, 0 packets received, +10 errors, 100.0% packet loss".

(** A summary with two loss clauses. *)
Definition sample_summary_twice : string :=
  "3 packets transmitted, 25.0% packet loss, 75.0% packet loss".

(** A report whose summary line has no loss clause. *)
Definition sample_no_loss : string :=
  "PING www.google.com (142.250.72.4): 56 data bytes" ++ newline ++
  "10 packets transmitted, 10 packets received" ++ newline ++
  "round-trip min/avg/max/stddev = 3.084/8.829/11.708/2.290 ms".

(** A log with banners, a line without marker and a blank line. *)
Definition sample_banner_log : string :=
  "Starting internet status logger" ++ newline ++
  "06/01/2020@10:00:00-Running internet status check" ++ newline.

Definition sample_mixed_log : string :=
  "Starting internet status logger" ++ newline ++
  "06/02/2020@09:00:00-Unable to reach modem" ++ newline ++
  "06/01/2020@10:00:00-Packet loss above acceptable level" ++ newline ++
  "06/02/2020@10:00:00-Running internet status check" ++ newline ++
  "06/02/2020@11:00:00-Unable to reach modem" ++ newline ++
  "06/03/2020@11:00:00-All good" ++ newline.

Definition sample_blank_log : string :=
  "06/01/2020@10:00:00-Packet loss above acceptable level" ++ newline ++
  newline ++
  "06/02/2020@10:00:00-Unable to reach modem" ++ newline.

(* ===================================================================== *)
(** * Facts about the runtime *)
(* ===================================================================== *)

Module PyFacts.

(** ** [index] *)

Lemma index_head {A : Type} (a : A) (l : list A) : index (a :: l) 0 = Ok a.
Proof.
  unfold index. cbn [List.length].
  replace (0 <? 0) with false by reflexivity.
  destruct (Z.leb_spec (Z.of_nat (S (List.length l))) 0) as [H | H]; [lia |].
  reflexivity.
Qed.

Lemma index_nat {A : Type} (l : list A) (n : nat) :
  index l (Z.of_nat n) =
  match nth_error l n with
  | Some a => Ok a
  | None => Raise IndexError
  end.
Proof.
  unfold index.
  destruct (Z.ltb_spec (Z.of_nat n) 0) as [H | _]; [lia |].
  destruct (Z.ltb_spec (Z.of_nat n) 0) as [H | _]; [lia |].
  rewrite Nat2Z.id. cbn [orb].
  destruct (Z.leb_spec (Z.of_nat (List.length l)) (Z.of_nat n)) as [H | H].
  - assert (Hn : nth_error l n = None) by (apply nth_error_None; lia).
    now rewrite Hn.
  - reflexivity.
Qed.

Lemma index_1 {A : Type} (l : list A) :
  index l 1 =
  match nth_error l 1 with
  | Some a => Ok a
  | None => Raise IndexError
  end.
Proof. exact (index_nat l 1). Qed.

Lemma index_2 {A : Type} (l : list A) :
  index l 2 =
  match nth_error l 2 with
  | Some a => Ok a
  | None => Raise IndexError
  end.
Proof. exact (index_nat l 2). Qed.

(** The last two elements, as [l[-2]] and [l[-1]]. *)
Lemma index_last_but_one {A : Type} (front : list A) (a b : A) :
  index (front ++ [a; b]) (-2) = Ok a.
Proof.
  unfold index. rewrite length_app. cbn [List.length].
  replace (-2 <? 0) with true by reflexivity.
  rewrite Nat2Z.inj_add.
  replace (-2 + (Z.of_nat (List.length front) + Z.of_nat 2))
    with (Z.of_nat (List.length front)) by lia.
  destruct (Z.ltb_spec (Z.of_nat (List.length front)) 0) as [H | _]; [lia |].
  destruct (Z.leb_spec (Z.of_nat (List.length front) + Z.of_nat 2)
                       (Z.of_nat (List.length front))) as [H | _]; [lia |].
  cbn [orb]. rewrite Nat2Z.id, nth_error_app2 by lia.
  now rewrite Nat.sub_diag.
Qed.

Lemma index_last {A : Type} (front : list A) (a b : A) :
  index (front ++ [a; b]) (-1) = Ok b.
Proof.
  unfold index. rewrite length_app. cbn [List.length].
  replace (-1 <? 0) with true by reflexivity.
  rewrite Nat2Z.inj_add.
  replace (-1 + (Z.of_nat (List.length front) + Z.of_nat 2))
    with (Z.of_nat (S (List.length front))) by lia.
  destruct (Z.ltb_spec (Z.of_nat (S (List.length front))) 0) as [H | _];
    [lia |].
  destruct (Z.leb_spec (Z.of_nat (List.length front) + Z.of_nat 2)
                       (Z.of_nat (S (List.length front)))) as [H | _];
    [lia |].
  cbn [orb]. rewrite Nat2Z.id, nth_error_app2 by lia.
  replace (S (List.length front) - List.length front)%nat with 1%nat by lia.
  reflexivity.
Qed.

(** A list of two or more elements ends in two elements. *)
Lemma last_two {A : Type} (a b : A) (l : list A) :
  exists (front : list A) x y, a :: b :: l = (front ++ [x; y])%list.
Proof.
  revert a b. induction l as [| e l IH]; intros a b.
  - exists [], a, b. reflexivity.
  - destruct (IH b e) as (front & x & y & E).
    exists (a :: front), x, y. rewrite E. reflexivity.
Qed.

(** ** [contains] and [split] *)

Lemma contains_char (a c : ascii) (s : string) :
  contains (String a "") (String c s) =
  Ascii.eqb a c || contains (String a "") s.
Proof.
  cbn [contains String.prefix].
  destruct (ascii_dec a c) as [E | N].
  - subst. rewrite Ascii.eqb_refl. now destruct s.
  - apply Ascii.eqb_neq in N. rewrite N. reflexivity.
Qed.

Lemma split_nonempty (sep : ascii) (s : string) : split sep s <> [].
Proof.
  destruct s as [| c s]; cbn [split]; [discriminate |].
  destruct (Ascii.eqb c sep); [discriminate |].
  destruct (split sep s); discriminate.
Qed.

Lemma split_cons (sep : ascii) (s : string) :
  split sep s = hd "" (split sep s) :: tl (split sep s).
Proof.
  pose proof (split_nonempty sep s) as H.
  destruct (split sep s); [contradiction | reflexivity].
Qed.

(** Without the separator there is one field, the string itself. *)
Lemma split_without (sep : ascii) (s : string) :
  contains (String sep "") s = false -> split sep s = [s].
Proof.
  induction s as [| c s IH]; intros H; [reflexivity |].
  rewrite contains_char in H. apply orb_false_iff in H as [Hc Hs].
  cbn [split]. rewrite Ascii.eqb_sym, Hc, (IH Hs). reflexivity.
Qed.

(** With the separator there are at least two fields. *)
Lemma split_with (sep : ascii) (s : string) :
  contains (String sep "") s = true ->
  exists a b rest, split sep s = a :: b :: rest.
Proof.
  induction s as [| c s IH]; intros H; [discriminate |].
  rewrite contains_char in H. cbn [split].
  destruct (Ascii.eqb c sep) eqn:Hc.
  - rewrite (split_cons sep s). eauto.
  - rewrite Ascii.eqb_sym, Hc in H. cbn [orb] in H.
    destruct (IH H) as (a & b & rest & E). rewrite E. eauto.
Qed.

(** The first field ends at the first separator. *)
Lemma split_app (sep : ascii) (a b : string) :
  contains (String sep "") a = false ->
  split sep (a ++ String sep b) = a :: split sep b.
Proof.
  induction a as [| c a IH]; intros H.
  - cbn [append split]. now rewrite Ascii.eqb_refl.
  - rewrite contains_char in H. apply orb_false_iff in H as [Hc Ha].
    cbn [append split]. rewrite Ascii.eqb_sym, Hc, (IH Ha). reflexivity.
Qed.

(** ** [splitlines] *)

Lemma splitlines_LF (rest : string) :
  splitlines (String LF rest) = "" :: splitlines rest.
Proof. destruct rest; reflexivity. Qed.

Lemma splitlines_newline_nonempty (text : string) :
  splitlines (text ++ newline) <> [].
Proof.
  destruct text as [| c text]; [discriminate |].
  cbn [append splitlines].
  destruct (is_linebreak c).
  - destruct (text ++ newline); [discriminate |].
    destruct (Ascii.eqb c CR && Ascii.eqb a LF); discriminate.
  - destruct (splitlines (text ++ newline)); discriminate.
Qed.

(** A text cut at a line feed: the lines before and the lines after. *)
Lemma splitlines_app_len (n : nat) :
  forall text rest, (String.length text <= n)%nat ->
  splitlines (text ++ String LF rest) =
  (splitlines (text ++ newline) ++ splitlines rest)%list.
Proof.
  induction n as [| n IH]; intros text rest Hlen.
  - destruct text; [| cbn in Hlen; lia].
    cbn [append]. rewrite splitlines_LF. reflexivity.
  - destruct text as [| c text].
    + cbn [append]. rewrite splitlines_LF. reflexivity.
    + cbn [String.length] in Hlen.
      cbn [append splitlines].
      destruct (is_linebreak c) eqn:Hc.
      * destruct text as [| c' text].
        -- cbn [append]. unfold newline.
           destruct (Ascii.eqb c CR) eqn:Hcr; cbn [andb].
           ++ rewrite Ascii.eqb_refl. reflexivity.
           ++ rewrite splitlines_LF. reflexivity.
        -- cbn [append]. unfold newline.
           destruct (Ascii.eqb c CR && Ascii.eqb c' LF).
           ++ cbn [String.length] in Hlen.
              rewrite (IH text rest) by lia. reflexivity.
           ++ change (String c' (text ++ String LF rest))
                with (String c' text ++ String LF rest).
              rewrite (IH (String c' text) rest) by lia. reflexivity.
      * rewrite (IH text rest) by lia.
        pose proof (splitlines_newline_nonempty text) as Hne.
        destruct (splitlines (text ++ newline)); [contradiction | reflexivity].
Qed.

Lemma splitlines_app (text rest : string) :
  splitlines (text ++ String LF rest) =
  (splitlines (text ++ newline) ++ splitlines rest)%list.
Proof. exact (splitlines_app_len (String.length text) text rest (le_n _)). Qed.

(** ** Dictionaries *)

Section Dict.

Context {V : Type}.

Lemma find_setitem_same (d : dict V) (k : string) (v : V) :
  find k (setitem d k v) = Some v.
Proof.
  induction d as [| [k' v'] d IH]; cbn [setitem find].
  - now rewrite String.eqb_refl.
  - destruct (String.eqb k k') eqn:E; cbn [find]; rewrite E; auto.
Qed.

Lemma find_setitem_other (d : dict V) (k k' : string) (v : V) :
  String.eqb k k' = false -> find k (setitem d k' v) = find k d.
Proof.
  intros N. induction d as [| [k0 v0] d IH]; cbn [setitem find].
  - now rewrite N.
  - destruct (String.eqb k' k0) eqn:E; cbn [find].
    + apply String.eqb_eq in E. subst k0. now rewrite N.
    + now rewrite IH.
Qed.

Lemma setitem_setitem (d : dict V) (k : string) (v w : V) :
  setitem (setitem d k v) k w = setitem d k w.
Proof.
  induction d as [| [k' v'] d IH]; cbn [setitem].
  - now rewrite String.eqb_refl.
  - destruct (String.eqb k k') eqn:E; cbn [setitem]; rewrite E;
      [reflexivity | now rewrite IH].
Qed.

Lemma setitem_same (d : dict V) (k : string) (v : V) :
  find k d = Some v -> setitem d k v = d.
Proof.
  induction d as [| [k' v'] d IH]; cbn [setitem find]; [discriminate |].
  destruct (String.eqb k k'); intros H.
  - now inversion H.
  - now rewrite IH.
Qed.

Lemma getitem_find (d : dict V) (k : string) (v : V) :
  find k d = Some v -> getitem d k = Ok v.
Proof. unfold getitem. now intros ->. Qed.

End Dict.

(** ** Loops *)

(** A body that acts on the elements a test selects runs on those alone. *)
Lemma for_each_filter {S A : Type} (test : A -> bool)
    (body : S -> A -> result S) (l : list A) :
  forall s,
  for_each l (fun s a => if test a then body s a else Ok s) s =
  for_each (filter test l) body s.
Proof.
  induction l as [| a l IH]; intros s; [reflexivity |].
  cbn [for_each filter]. destruct (test a); cbn [for_each bind].
  - destruct (body s a); cbn [bind]; auto.
  - apply IH.
Qed.

(** ** Pairwise different keys *)

Lemma distinct_pairwise (l : list string) : distinct l = true -> pairwise l.
Proof.
  induction l as [| k l IH]; cbn [distinct pairwise]; [trivial |].
  rewrite andb_true_iff, negb_true_iff. intros [H Hl].
  split; [| auto]. clear IH Hl.
  induction l as [| k' l IH]; cbn [all_differ]; [trivial |].
  cbn [existsb] in H. apply orb_false_iff in H as [E H].
  split; [| auto]. split; [exact E | now rewrite String.eqb_sym].
Qed.

End PyFacts.

Import PyFacts.

(** Turns [H : distinct [k1; ...; kn] = true] into the facts
    [String.eqb ki kj = false]. *)
Ltac distinct_facts H :=
  let P := fresh "P" in
  pose proof (distinct_pairwise _ H) as P;
  cbn [pairwise all_differ response_keys error_markers summary_keys] in P;
  decompose [and] P; clear P.

(** Decides the key comparisons left in the goal. *)
Ltac keys :=
  repeat first
    [ rewrite String.eqb_refl
    | match goal with
      | E : String.eqb ?a ?b = false |- context [String.eqb ?a ?b] =>
          rewrite E
      end
    | progress cbn [setitem find getitem mem bind literal fold_left
                    fst snd negb andb orb for_each] ].

(* ===================================================================== *)
(** * The ping response parser *)
(* ===================================================================== *)

Section PingFacts.

Context (c : constants).
Hypothesis Hkeys : distinct (response_keys c) = true.

(** The dictionary [parse_ping_response] starts from. *)
Lemma initial_dict (url : string) :
  literal [ (RESPONSE_KEY_HOST c, VStr url);
            (RESPONSE_KEY_ABLE_TO_RESOLVE_HOST c, VBool false);
            (RESPONSE_KEY_ERROR c, VNone) ] =
  [ (RESPONSE_KEY_HOST c, VStr url);
    (RESPONSE_KEY_ABLE_TO_RESOLVE_HOST c, VBool false);
    (RESPONSE_KEY_ERROR c, VNone) ].
Proof. distinct_facts Hkeys. keys. reflexivity. Qed.

(** The summary line: the count and the one packet loss clause. *)
Lemma summary_parsed (d : dict pyval) (summary metric : string) (n : Z)
    (loss : spec_float) :
  int (leading_token summary) = Ok n ->
  loss_clauses summary = [metric] ->
  float (loss_text metric) = Ok loss ->
  Ping.parse_ping_summary_and_update_parsed_ping_dict c d summary =
  Ok (setitem (setitem d (RESPONSE_KEY_NUM_PACKETS_SENT c) (VInt n))
              (RESPONSE_KEY_PACKET_LOSS_PERCENT c) (VFloat loss)).
Proof.
  unfold leading_token, loss_clauses, loss_text. intros Hn Hone Hloss.
  unfold Ping.parse_ping_summary_and_update_parsed_ping_dict.
  rewrite (split_cons "," summary) at 1. rewrite index_head. cbn [bind].
  rewrite (split_cons " " (hd "" (split "," summary))), index_head.
  cbn [bind]. rewrite Hn. cbn [bind].
  rewrite (for_each_filter (contains "packet loss")
             (fun parsed_ping_dict metric =>
                packet_loss <- index (split "%" metric) 0 ;;
                packet_loss_percent <- float packet_loss ;;
                Ok (setitem parsed_ping_dict
                            (RESPONSE_KEY_PACKET_LOSS_PERCENT c)
                            (VFloat packet_loss_percent)))).
  rewrite Hone. cbn [for_each].
  rewrite (split_cons "%" metric), index_head. cbn [bind].
  rewrite Hloss. reflexivity.
Qed.

(** The timing line: the average and the maximum. *)
Lemma timing_parsed (d : dict pyval) (timing average maximum : string)
    (avg mx : spec_float) :
  nth_error (timing_fields timing) 1 = Some average ->
  nth_error (timing_fields timing) 2 = Some maximum ->
  float average = Ok avg ->
  float maximum = Ok mx ->
  Ping.parse_ping_timing_and_update_parsed_ping_dict c d timing =
  Ok (setitem (setitem d (RESPONSE_KEY_AVERAGE_ROUND_TRIP_TIME c) (VFloat avg))
              (RESPONSE_KEY_MAX_ROUND_TRIP_TIME c) (VFloat mx)).
Proof.
  intros Ha Hm Havg Hmx.
  unfold Ping.parse_ping_timing_and_update_parsed_ping_dict.
  unfold timing_fields in Ha, Hm.
  rewrite index_1.
  destruct (split "=" timing) as [| lhs [| timings more]];
    try (destruct lhs; discriminate); try discriminate.
  cbn [nth_error bind].
  rewrite index_1, Ha. cbn [bind]. rewrite Havg. cbn [bind].
  rewrite index_2, Hm. cbn [bind]. rewrite Hmx. reflexivity.
Qed.

(** The first line decides whether the command ran. *)
Lemma executed (first : string) (rest : list string) :
  Ping.check_if_ping_executed_successfully c (first :: rest) =
  Ok (negb (contains (COMMAND_EXIT_ERROR_MESSAGE c) first)).
Proof.
  unfold Ping.check_if_ping_executed_successfully.
  rewrite index_head. cbn [bind].
  now destruct (contains (COMMAND_EXIT_ERROR_MESSAGE c) first).
Qed.

(** A response of two lines or more, the first without the failure
    marker, whose last two lines are a summary and a timing line. *)
Lemma parse_success (url response : string) (front : list string)
    (summary timing metric average maximum : string)
    (n : Z) (loss avg mx : spec_float) :
  splitlines response = (front ++ [summary; timing])%list ->
  contains (COMMAND_EXIT_ERROR_MESSAGE c) (first_line response) = false ->
  int (leading_token summary) = Ok n ->
  loss_clauses summary = [metric] ->
  float (loss_text metric) = Ok loss ->
  nth_error (timing_fields timing) 1 = Some average ->
  nth_error (timing_fields timing) 2 = Some maximum ->
  float average = Ok avg ->
  float maximum = Ok mx ->
  Ping.parse_ping_response c url response =
  Ok (parsed_response c (VStr url) (VBool true) VNone (VInt n)
        (VFloat loss) (VFloat avg) (VFloat mx)).
Proof.
  intros Hlines Hfirst Hn Hone Hloss Ha Hm Havg Hmx.
  unfold Ping.parse_ping_response. rewrite initial_dict.
  unfold first_line in Hfirst. rewrite Hlines in *.
  assert (Hshape : exists first rest,
             (front ++ [summary; timing])%list = first :: rest
             /\ rest <> []).
  { destruct front as [| f front]; cbn [app];
      [eexists _, _; split; [reflexivity | discriminate] |].
    eexists _, _. split; [reflexivity |]. now destruct front. }
  destruct Hshape as (first & rest & E & Hrest).
  rewrite E in Hfirst. cbn [hd] in Hfirst.
  rewrite E at 1. rewrite executed, Hfirst. cbn [bind negb].
  unfold Ping.determine_if_able_to_resolve_host.
  rewrite E at 1. cbn [List.length].
  destruct (Z.eqb_spec (Z.of_nat (S (List.length rest))) 1) as [H1 | _].
  { destruct rest; [contradiction | cbn [List.length] in H1; lia]. }
  cbn [negb]. rewrite index_last_but_one. cbn [bind].
  rewrite (summary_parsed _ _ _ _ _ Hn Hone Hloss). cbn [bind].
  rewrite index_last. cbn [bind].
  rewrite (timing_parsed _ _ _ _ _ _ Ha Hm Havg Hmx).
  unfold parsed_response. distinct_facts Hkeys. keys. reflexivity.
Qed.

(** A response whose first line has the failure marker. *)
Lemma parse_failure (url response first : string) (rest : list string) :
  splitlines response = first :: rest ->
  contains (COMMAND_EXIT_ERROR_MESSAGE c) first = true ->
  Ping.parse_ping_response c url response =
  Ok [ (RESPONSE_KEY_HOST c, VStr url);
       (RESPONSE_KEY_ABLE_TO_RESOLVE_HOST c, VBool false);
       (RESPONSE_KEY_ERROR c,
        VStr (if String.eqb url (LOCAL_ROUTER c)
              then LOCAL_ROUTER_ERROR c else MODEM_ERROR c)) ].
Proof.
  intros Hlines Hmark.
  unfold Ping.parse_ping_response. rewrite initial_dict, Hlines, executed.
  rewrite Hmark. cbn [bind negb].
  distinct_facts Hkeys.
  destruct (String.eqb url (LOCAL_ROUTER c)); keys; reflexivity.
Qed.

(** A response of one line without the failure marker. *)
Lemma parse_one_line (url response line : string) :
  splitlines response = [line] ->
  contains (COMMAND_EXIT_ERROR_MESSAGE c) line = false ->
  Ping.parse_ping_response c url response =
  Ok [ (RESPONSE_KEY_HOST c, VStr url);
       (RESPONSE_KEY_ABLE_TO_RESOLVE_HOST c, VBool false);
       (RESPONSE_KEY_ERROR c, VNone) ].
Proof.
  intros Hlines Hmark.
  unfold Ping.parse_ping_response. rewrite initial_dict, Hlines, executed.
  rewrite Hmark. reflexivity.
Qed.

End PingFacts.

(** A response without any line. *)
Lemma parse_no_line (c : constants) (url response : string) :
  splitlines response = [] ->
  Ping.parse_ping_response c url response = Raise IndexError.
Proof.
  intros Hlines. unfold Ping.parse_ping_response. rewrite Hlines.
  reflexivity.
Qed.

Lemma first_line_app (header rest : string) :
  first_line (header ++ String LF rest) = first_line (header ++ newline).
Proof.
  unfold first_line. rewrite splitlines_app.
  pose proof (splitlines_newline_nonempty header) as Hne.
  destruct (splitlines (header ++ newline)); [contradiction | reflexivity].
Qed.

(** C1. A multi-line response whose first line lacks the failure marker
    and whose last two lines are well formed parses into a result with
    [able_to_resolve_host = True], no error, and exactly the four numeric
    fields: the count is the integer before the first space of the first
    comma segment of the line before the last, the packet loss is the
    float before ['%'] in the comma segment containing [packet loss], the
    average and the maximum are the fields 1 and 2 of the ['/'] split of
    what follows ['='] in the last line. In particular, whatever header
    text precedes them (its first line lacking the marker), the two lines
    of the scenario give 10, 0.0, 8.829 and 11.708. *)
Theorem C1_parse_well_formed_success (c : constants)
    (Hkeys : distinct (response_keys c) = true) :
  (forall (url response : string) (front : list string)
          (summary timing metric average maximum : string)
          (n : Z) (loss avg mx : spec_float),
      splitlines response = (front ++ [summary; timing])%list ->
      contains (COMMAND_EXIT_ERROR_MESSAGE c) (first_line response) = false ->
      int (leading_token summary) = Ok n ->
      loss_clauses summary = [metric] ->
      float (loss_text metric) = Ok loss ->
      nth_error (timing_fields timing) 1 = Some average ->
      nth_error (timing_fields timing) 2 = Some maximum ->
      float average = Ok avg ->
      float maximum = Ok mx ->
      Ping.parse_ping_response c url response =
      Ok (parsed_response c (VStr url) (VBool true) VNone (VInt n)
            (VFloat loss) (VFloat avg) (VFloat mx)))
  /\
  (forall url header : string,
      contains (COMMAND_EXIT_ERROR_MESSAGE c) (first_line (header ++ newline))
        = false ->
      Ping.parse_ping_response c url
        (header ++ newline ++ scenario_summary ++ newline ++ scenario_timing) =
      Ok (parsed_response c (VStr url) (VBool true) VNone (VInt 10)
            (VFloat (S754_zero false))
            (VFloat (float_of_decimal false 8829 (-3)))
            (VFloat (float_of_decimal false 11708 (-3))))).
Proof.
  split.
  - intros. eapply parse_success; eassumption.
  - intros url header Hfirst.
    change (header ++ newline ++ scenario_summary ++ newline ++ scenario_timing)
      with (header
            ++ String LF (scenario_summary ++ String LF scenario_timing)).
    eapply (parse_success c Hkeys url _ (splitlines (header ++ newline))
              scenario_summary scenario_timing
              " 0.0% packet loss" "8.829" "11.708").
    + rewrite splitlines_app. reflexivity.
    + now rewrite first_line_app.
    + reflexivity.
    + reflexivity.
    + reflexivity.
    + reflexivity.
    + reflexivity.
    + reflexivity.
    + reflexivity.
Qed.

Lemma C1_witness :
  Ping.parse_ping_response sample_constants "www.google.com" sample_report =
  Ok (parsed_response sample_constants (VStr "www.google.com") (VBool true)
        VNone (VInt 2)
        (VFloat (float_of_decimal false 500 (-1)))
        (VFloat (float_of_decimal false 25 (-1)))
        (VFloat (float_of_decimal false 35 (-1))))
  /\
  Ping.parse_ping_response sample_constants "www.google.com"
    ("PING www.google.com (142.250.72.4): 56 data bytes" ++ newline ++
     scenario_summary ++ newline ++ scenario_timing) =
  Ok [ ("host", VStr "www.google.com");
       ("able_to_resolve_host", VBool true);
       ("error", VNone);
       ("num_packets_sent", VInt 10);
       ("packet_loss_percent", VFloat (S754_zero false));
       ("average_round_trip_time",
        VFloat (S754_finite false 4970285138756764 (-49)));
       ("max_round_trip_time",
        VFloat (S754_finite false 6591018054656721 (-49))) ].
Proof.
  split.
  - apply (proj1 (C1_parse_well_formed_success sample_constants eq_refl)
             "www.google.com" sample_report
             [ "PING www.google.com (142.250.72.4): 56 data bytes"; "";
               "--- www.google.com ping statistics ---" ]
             "2 packets transmitted, 1 packets received, 50.0% packet loss"
             "round-trip min/avg/max/stddev = 1.5/2.5/3.5/0.5 ms"
             " 50.0% packet loss" "2.5" "3.5");
      reflexivity.
  - apply (proj2 (C1_parse_well_formed_success sample_constants eq_refl)
             "www.google.com"
             "PING www.google.com (142.250.72.4): 56 data bytes").
    reflexivity.
Defined.

(** C3. When the first line of the response contains the failure marker,
    the result holds the host, [able_to_resolve_host = False] and the
    error, and nothing else; the error is [LOCAL_ROUTER_ERROR] when the
    target is the local router and [MODEM_ERROR] for any other target.
    Two such responses give the same result for the same target. *)
Theorem C3_execution_failure (c : constants) (url response first : string)
    (rest : list string)
    (Hkeys : distinct (response_keys c) = true)
    (Hlines : splitlines response = first :: rest)
    (Hmarker : contains (COMMAND_EXIT_ERROR_MESSAGE c) first = true) :
  Ping.parse_ping_response c url response =
  Ok [ (RESPONSE_KEY_HOST c, VStr url);
       (RESPONSE_KEY_ABLE_TO_RESOLVE_HOST c, VBool false);
       (RESPONSE_KEY_ERROR c,
        VStr (if String.eqb url (LOCAL_ROUTER c)
              then LOCAL_ROUTER_ERROR c else MODEM_ERROR c)) ]
  /\
  (forall (response' first' : string) (rest' : list string),
      splitlines response' = first' :: rest' ->
      contains (COMMAND_EXIT_ERROR_MESSAGE c) first' = true ->
      Ping.parse_ping_response c url response' =
      Ping.parse_ping_response c url response).
Proof.
  split.
  - eapply parse_failure; eassumption.
  - intros response' first' rest' Hlines' Hmarker'.
    rewrite (parse_failure c Hkeys url response first rest Hlines Hmarker).
    eapply parse_failure; eassumption.
Qed.

Lemma C3_witness :
  Ping.parse_ping_response sample_constants "192.168.1.1" sample_failure =
  Ok [ ("host", VStr "192.168.1.1");
       ("able_to_resolve_host", VBool false);
       ("error", VStr "Unable to reach local router") ]
  /\
  Ping.parse_ping_response sample_constants "www.google.com" sample_failure =
  Ok [ ("host", VStr "www.google.com");
       ("able_to_resolve_host", VBool false);
       ("error", VStr "Unable to reach modem") ].
Proof.
  split.
  - exact (proj1 (C3_execution_failure sample_constants "192.168.1.1"
                    sample_failure sample_failure [] eq_refl eq_refl eq_refl)).
  - exact (proj1 (C3_execution_failure sample_constants "www.google.com"
                    sample_failure sample_failure [] eq_refl eq_refl eq_refl)).
Defined.

(* ===================================================================== *)
(** * The classifier *)
(* ===================================================================== *)

Section ClassifierFacts.

Context (c : constants).

(** The four branches of [check_if_ping_was_successful], in their order. *)

Lemma classify_unresolved (d : dict pyval) (able : pyval) :
  find (RESPONSE_KEY_ABLE_TO_RESOLVE_HOST c) d = Some able ->
  truthy able = false ->
  Ping.check_if_ping_was_successful c d =
  Ok (setitem d (RESPONSE_KEY_ERROR c) (VStr (RESOLVE_HOST_ERROR c))).
Proof.
  intros Hable Hfalse.
  unfold Ping.check_if_ping_was_successful, Ping.check_if_ping_resolve_host.
  rewrite (getitem_find _ _ _ Hable). cbn [bind]. now rewrite Hfalse.
Qed.

Lemma classify_packet_loss (d : dict pyval) (able loss : pyval) :
  find (RESPONSE_KEY_ABLE_TO_RESOLVE_HOST c) d = Some able ->
  truthy able = true ->
  find (RESPONSE_KEY_PACKET_LOSS_PERCENT c) d = Some loss ->
  gt loss (MAX_ACCEPTABLE_PACKET_LOSS c) = Ok true ->
  Ping.check_if_ping_was_successful c d =
  Ok (setitem d (RESPONSE_KEY_ERROR c) (VStr (PACKET_LOSS_ERROR c))).
Proof.
  intros Hable Htrue Hloss Hhigh.
  unfold Ping.check_if_ping_was_successful, Ping.check_if_ping_resolve_host,
    Ping.check_if_ping_packet_loss_acceptable.
  rewrite (getitem_find _ _ _ Hable). cbn [bind]. rewrite Htrue. cbn [negb].
  rewrite (getitem_find _ _ _ Hloss). cbn [bind]. rewrite Hhigh.
  reflexivity.
Qed.

Lemma classify_round_trip_time (d : dict pyval) (able loss average : pyval) :
  find (RESPONSE_KEY_ABLE_TO_RESOLVE_HOST c) d = Some able ->
  truthy able = true ->
  find (RESPONSE_KEY_PACKET_LOSS_PERCENT c) d = Some loss ->
  gt loss (MAX_ACCEPTABLE_PACKET_LOSS c) = Ok false ->
  find (RESPONSE_KEY_AVERAGE_ROUND_TRIP_TIME c) d = Some average ->
  gt average (MAX_ACCEPTABLE_AVERAGE_ROUND_TRIP_TIME c) = Ok true ->
  Ping.check_if_ping_was_successful c d =
  Ok (setitem d (RESPONSE_KEY_ERROR c) (VStr (ROUND_TRIP_TIME_ERROR c))).
Proof.
  intros Hable Htrue Hloss Hlow Havg Hhigh.
  unfold Ping.check_if_ping_was_successful, Ping.check_if_ping_resolve_host,
    Ping.check_if_ping_packet_loss_acceptable,
    Ping.check_if_ping_round_trip_time_acceptable.
  rewrite (getitem_find _ _ _ Hable). cbn [bind]. rewrite Htrue. cbn [negb].
  rewrite (getitem_find _ _ _ Hloss). cbn [bind]. rewrite Hlow.
  cbn [bind negb].
  rewrite (getitem_find _ _ _ Havg). cbn [bind]. rewrite Hhigh.
  reflexivity.
Qed.

Lemma classify_acceptable (d : dict pyval) (able loss average : pyval) :
  find (RESPONSE_KEY_ABLE_TO_RESOLVE_HOST c) d = Some able ->
  truthy able = true ->
  find (RESPONSE_KEY_PACKET_LOSS_PERCENT c) d = Some loss ->
  gt loss (MAX_ACCEPTABLE_PACKET_LOSS c) = Ok false ->
  find (RESPONSE_KEY_AVERAGE_ROUND_TRIP_TIME c) d = Some average ->
  gt average (MAX_ACCEPTABLE_AVERAGE_ROUND_TRIP_TIME c) = Ok false ->
  Ping.check_if_ping_was_successful c d =
  Ok (setitem d (RESPONSE_KEY_ERROR c) (VStr "")).
Proof.
  intros Hable Htrue Hloss Hlow Havg Hlow'.
  unfold Ping.check_if_ping_was_successful, Ping.check_if_ping_resolve_host,
    Ping.check_if_ping_packet_loss_acceptable,
    Ping.check_if_ping_round_trip_time_acceptable.
  rewrite (getitem_find _ _ _ Hable). cbn [bind]. rewrite Htrue. cbn [negb].
  rewrite (getitem_find _ _ _ Hloss). cbn [bind]. rewrite Hlow.
  cbn [bind negb].
  rewrite (getitem_find _ _ _ Havg). cbn [bind]. rewrite Hlow'.
  reflexivity.
Qed.

End ClassifierFacts.

(** C2. A result with [able_to_resolve_host = False] and a packet loss
    above the threshold is classified [RESOLVE_HOST_ERROR]: the error
    stored is that one, and not [PACKET_LOSS_ERROR] (a different message).
    The packet loss test does match, but comes second: the same result
    with the host resolved is classified [PACKET_LOSS_ERROR]. *)
Theorem C2_resolution_checked_first (c : constants) (d : dict pyval)
    (loss : pyval)
    (Hkeys : distinct (response_keys c) = true)
    (Hmessages : RESOLVE_HOST_ERROR c <> PACKET_LOSS_ERROR c)
    (Hable : find (RESPONSE_KEY_ABLE_TO_RESOLVE_HOST c) d = Some (VBool false))
    (Hloss : find (RESPONSE_KEY_PACKET_LOSS_PERCENT c) d = Some loss)
    (Hhigh : gt loss (MAX_ACCEPTABLE_PACKET_LOSS c) = Ok true) :
  exists d' : dict pyval,
    Ping.check_if_ping_was_successful c d = Ok d'
    /\ d' = setitem d (RESPONSE_KEY_ERROR c) (VStr (RESOLVE_HOST_ERROR c))
    /\ find (RESPONSE_KEY_ERROR c) d' = Some (VStr (RESOLVE_HOST_ERROR c))
    /\ find (RESPONSE_KEY_ERROR c) d' <> Some (VStr (PACKET_LOSS_ERROR c))
    /\ Ping.check_if_ping_was_successful c
         (setitem d (RESPONSE_KEY_ABLE_TO_RESOLVE_HOST c) (VBool true)) =
       Ok (setitem
             (setitem d (RESPONSE_KEY_ABLE_TO_RESOLVE_HOST c) (VBool true))
             (RESPONSE_KEY_ERROR c) (VStr (PACKET_LOSS_ERROR c))).
Proof.
  eexists. split; [| split; [reflexivity |]].
  - now apply (classify_unresolved c d (VBool false)).
  - split; [apply find_setitem_same |].
    split.
    + rewrite find_setitem_same. congruence.
    + distinct_facts Hkeys.
      apply (classify_packet_loss c _ (VBool true) loss).
      * apply find_setitem_same.
      * reflexivity.
      * rewrite find_setitem_other; assumption.
      * assumption.
Qed.

Lemma C2_witness :
  Ping.check_if_ping_was_successful sample_constants sample_unresolved_lossy =
  Ok (parsed_response sample_constants (VStr "www.google.com") (VBool false)
        (VStr "Unable to resolve host") (VInt 2)
        (VFloat (float_of_decimal false 500 (-1)))
        (VFloat (float_of_decimal false 25 (-1)))
        (VFloat (float_of_decimal false 35 (-1)))).
Proof.
  destruct (C2_resolution_checked_first sample_constants
              sample_unresolved_lossy
              (VFloat (float_of_decimal false 500 (-1)))
              eq_refl ltac:(discriminate) eq_refl eq_refl eq_refl)
    as (d' & Hrun & Hd' & _).
  rewrite Hrun, Hd'. reflexivity.
Defined.

(* ===================================================================== *)
(** * When the parser returns, and what it raises *)
(* ===================================================================== *)




Section ParserOutcome.

Context (c : constants).

Lemma loss_body_float (d : dict pyval) (metric : string) :
  loss_body c d metric =
  (packet_loss_percent <- float (loss_text metric) ;;
   Ok (setitem d (RESPONSE_KEY_PACKET_LOSS_PERCENT c)
               (VFloat packet_loss_percent))).
Proof.
  unfold loss_body, loss_text.
  rewrite (split_cons "%" metric) at 1. rewrite index_head. reflexivity.
Qed.

Lemma loss_loop_returns (l : list string) :
  forall d,
  returns (for_each l (loss_body c) d) =
  forallb (fun metric => returns (float (loss_text metric))) l.
Proof.
  induction l as [| metric l IH]; intros d; [reflexivity |].
  cbn [for_each forallb]. rewrite loss_body_float.
  destruct (float (loss_text metric)); cbn [bind returns andb];
    [apply IH | reflexivity].
Qed.


(** The summary line, as a count and a loop over the loss clauses. *)
Lemma summary_steps (d : dict pyval) (summary : string) :
  Ping.parse_ping_summary_and_update_parsed_ping_dict c d summary =
  (num_packets_sent <- int (leading_token summary) ;;
   for_each (loss_clauses summary) (loss_body c)
     (setitem d (RESPONSE_KEY_NUM_PACKETS_SENT c) (VInt num_packets_sent))).
Proof.
  unfold Ping.parse_ping_summary_and_update_parsed_ping_dict, leading_token,
    loss_clauses.
  rewrite (split_cons "," summary) at 1. rewrite index_head. cbn [bind].
  rewrite (split_cons " " (hd "" (split "," summary))) at 1.
  rewrite index_head. cbn [bind].
  destruct (int _); cbn [bind]; [| reflexivity].
  apply (for_each_filter (contains "packet loss") (loss_body c)).
Qed.

Lemma summary_returns (d : dict pyval) (summary : string) :
  returns (Ping.parse_ping_summary_and_update_parsed_ping_dict c d summary)
  = summary_parses summary.
Proof.
  rewrite summary_steps. unfold summary_parses.
  destruct (int (leading_token summary)); cbn [bind returns andb];
    [apply loss_loop_returns | reflexivity].
Qed.


(** The timing line, as two fields and their conversions. *)
Lemma timing_steps (d : dict pyval) (timing : string) :
  Ping.parse_ping_timing_and_update_parsed_ping_dict c d timing =
  (average <- index (timing_fields timing) 1 ;;
   average_round_trip_time <- float average ;;
   maximum <- index (timing_fields timing) 2 ;;
   max_round_trip_time <- float maximum ;;
   Ok (setitem
         (setitem d (RESPONSE_KEY_AVERAGE_ROUND_TRIP_TIME c)
                  (VFloat average_round_trip_time))
         (RESPONSE_KEY_MAX_ROUND_TRIP_TIME c) (VFloat max_round_trip_time))).
Proof.
  unfold Ping.parse_ping_timing_and_update_parsed_ping_dict, timing_fields.
  rewrite index_1.
  destruct (split "=" timing) as [| lhs [| timings more]]; reflexivity.
Qed.

Lemma timing_returns (d : dict pyval) (timing : string) :
  returns (Ping.parse_ping_timing_and_update_parsed_ping_dict c d timing)
  = timing_parses timing.
Proof.
  rewrite timing_steps. unfold timing_parses. rewrite index_1, index_2.
  destruct (nth_error (timing_fields timing) 1) as [average |] eqn:E1.
  - cbn [bind].
    destruct (nth_error (timing_fields timing) 2) as [maximum |] eqn:E2.
    + destruct (float average); cbn [bind returns andb]; [| reflexivity].
      destruct (float maximum); reflexivity.
    + destruct (float average); reflexivity.
  - cbn [bind returns].
    destruct (nth_error (timing_fields timing) 2); reflexivity.
Qed.


(** Two lines or more, the first without the failure marker: the line
    before the last and the last line are parsed, in this order. *)
Lemma parse_multi_line (url response : string) (front : list string)
    (summary timing : string) :
  splitlines response = (front ++ [summary; timing])%list ->
  contains (COMMAND_EXIT_ERROR_MESSAGE c) (first_line response) = false ->
  Ping.parse_ping_response c url response =
  (d <- Ping.parse_ping_summary_and_update_parsed_ping_dict c
          (resolved_dict c url) summary ;;
   Ping.parse_ping_timing_and_update_parsed_ping_dict c d timing).
Proof.
  intros Hlines Hfirst.
  unfold Ping.parse_ping_response, resolved_dict.
  unfold first_line in Hfirst. rewrite Hlines in *.
  assert (Hshape : exists first rest,
             (front ++ [summary; timing])%list = first :: rest
             /\ rest <> []).
  { destruct front as [| f front]; cbn [app];
      [eexists _, _; split; [reflexivity | discriminate] |].
    eexists _, _. split; [reflexivity |]. now destruct front. }
  destruct Hshape as (first & rest & E & Hrest).
  rewrite E in Hfirst. cbn [hd] in Hfirst.
  rewrite E at 1. rewrite executed, Hfirst. cbn [bind negb].
  unfold Ping.determine_if_able_to_resolve_host.
  rewrite E at 1. cbn [List.length].
  destruct (Z.eqb_spec (Z.of_nat (S (List.length rest))) 1) as [H1 | _].
  { destruct rest; [contradiction | cbn [List.length] in H1; lia]. }
  cbn [negb]. rewrite index_last_but_one. cbn [bind].
  destruct (Ping.parse_ping_summary_and_update_parsed_ping_dict c _ summary);
    cbn [bind]; [| reflexivity].
  rewrite index_last. reflexivity.
Qed.

Lemma parse_multi_line_returns (url response : string) (front : list string)
    (summary timing : string) :
  splitlines response = (front ++ [summary; timing])%list ->
  contains (COMMAND_EXIT_ERROR_MESSAGE c) (first_line response) = false ->
  returns (Ping.parse_ping_response c url response) =
  summary_parses summary && timing_parses timing.
Proof.
  intros Hlines Hfirst.
  rewrite (parse_multi_line url response front summary timing Hlines Hfirst).
  rewrite <- (summary_returns (resolved_dict c url) summary).
  destruct (Ping.parse_ping_summary_and_update_parsed_ping_dict c _ summary)
    as [d |]; cbn [bind returns andb]; [apply timing_returns | reflexivity].
Qed.


End ParserOutcome.

(* ===================================================================== *)
(** * Strings that [float] rejects *)
(* ===================================================================== *)

(** A string with a character that is no white space, no digit and none
    of the characters of a number, of [inf], [infinity] or [nan] is not
    converted. *)

Section Foreign.

Variable a : ascii.

Local Abbreviation occurs s := (contains (String a "") s = true).









(** The characters of a number and of the three words, in lower case. *)
Hypothesis Hspace : is_space a = false.
Hypothesis Hdigit : is_digit a = false.
Hypothesis Hforeign :
  existsb (Ascii.eqb (to_lower a))
          (list_ascii_of_string "_+-.einftya") = false.






End Foreign.

(* ===================================================================== *)
(** * Results of the parser with an unresolved host *)
(* ===================================================================== *)

Section Unresolved.

Context (c : constants).
Hypothesis Hkeys : distinct (response_keys c) = true.

Lemma loss_loop_keeps (k : string) (l : list string) :
  String.eqb k (RESPONSE_KEY_PACKET_LOSS_PERCENT c) = false ->
  forall d d', for_each l (loss_body c) d = Ok d' -> find k d' = find k d.
Proof.
  intros Hk. induction l as [| metric l IH]; intros d d'; cbn [for_each].
  - intros H. now inversion H.
  - rewrite loss_body_float.
    destruct (float (loss_text metric)); cbn [bind]; [| discriminate].
    intros H. rewrite (IH _ _ H). now apply find_setitem_other.
Qed.

(** A result of two lines or more has [able_to_resolve_host = True]. *)
Lemma parse_multi_line_resolved (url response : string)
    (front : list string) (summary timing : string) (d : dict pyval) :
  splitlines response = (front ++ [summary; timing])%list ->
  contains (COMMAND_EXIT_ERROR_MESSAGE c) (first_line response) = false ->
  Ping.parse_ping_response c url response = Ok d ->
  find (RESPONSE_KEY_ABLE_TO_RESOLVE_HOST c) d = Some (VBool true).
Proof.
  intros Hlines Hfirst.
  rewrite (parse_multi_line c url response front summary timing Hlines Hfirst).
  rewrite summary_steps.
  destruct (int (leading_token summary)) as [n |]; cbn [bind]; [| discriminate].
  destruct (for_each _ _ _) as [d1 |] eqn:Hloop; cbn [bind]; [| discriminate].
  rewrite timing_steps.
  destruct (index (timing_fields timing) 1) as [average |]; cbn [bind];
    [| discriminate].
  destruct (float average) as [avg |]; cbn [bind]; [| discriminate].
  destruct (index (timing_fields timing) 2) as [maximum |]; cbn [bind];
    [| discriminate].
  destruct (float maximum) as [mx |]; cbn [bind]; [| discriminate].
  intros H. inversion H. subst d. clear H.
  distinct_facts Hkeys.
  rewrite !find_setitem_other by assumption.
  rewrite (loss_loop_keeps (RESPONSE_KEY_ABLE_TO_RESOLVE_HOST c) _
             ltac:(assumption) _ _ Hloop).
  rewrite find_setitem_other by assumption.
  unfold resolved_dict. apply find_setitem_same.
Qed.

End Unresolved.

(** C4, the claim as stated fails: the one line of a ping that could not
    resolve its target is parsed into a result with
    [able_to_resolve_host = False] whose error is [None], none of the three
    diagnoses. *)
Lemma C4_counterexample :
  Ping.parse_ping_response sample_constants "example.invalid"
    sample_unresolved =
  Ok [ ("host", VStr "example.invalid");
       ("able_to_resolve_host", VBool false);
       ("error", VNone) ]
  /\ ~ In VNone [ VStr (LOCAL_ROUTER_ERROR sample_constants);
                  VStr (MODEM_ERROR sample_constants);
                  VStr (RESOLVE_HOST_ERROR sample_constants) ].
Proof.
  split; [reflexivity |].
  intros [H | [H | [H | []]]]; discriminate.
Qed.

(** C4, amended. In a result of the parser with
    [able_to_resolve_host = False] none of the four numeric fields is
    there, and the error is [LOCAL_ROUTER_ERROR] or [MODEM_ERROR], set by
    the parser, or still [None]: then the classifier, not the parser, sets
    [RESOLVE_HOST_ERROR], and [ping_host_and_return_parsed_response] runs
    the classifier on such a result. *)
Theorem C4_unresolved_result (c : constants) (url response : string)
    (d : dict pyval)
    (Hkeys : distinct (response_keys c) = true)
    (Hparse : Ping.parse_ping_response c url response = Ok d)
    (Hable : find (RESPONSE_KEY_ABLE_TO_RESOLVE_HOST c) d
             = Some (VBool false)) :
  find (RESPONSE_KEY_NUM_PACKETS_SENT c) d = None
  /\ find (RESPONSE_KEY_PACKET_LOSS_PERCENT c) d = None
  /\ find (RESPONSE_KEY_AVERAGE_ROUND_TRIP_TIME c) d = None
  /\ find (RESPONSE_KEY_MAX_ROUND_TRIP_TIME c) d = None
  /\ (find (RESPONSE_KEY_ERROR c) d = Some (VStr (LOCAL_ROUTER_ERROR c))
      \/ find (RESPONSE_KEY_ERROR c) d = Some (VStr (MODEM_ERROR c))
      \/ (find (RESPONSE_KEY_ERROR c) d = Some VNone
          /\ Ping.check_if_ping_was_successful c d =
             Ok (setitem d (RESPONSE_KEY_ERROR c)
                         (VStr (RESOLVE_HOST_ERROR c)))
          /\ forall (ping_host : string -> Z -> string) (num_pings : Z),
               ping_host url num_pings = response ->
               Ping.ping_host_and_return_parsed_response c ping_host url
                 num_pings =
               Ok (setitem d (RESPONSE_KEY_ERROR c)
                           (VStr (RESOLVE_HOST_ERROR c))))).
Proof.
  destruct (splitlines response) as [| first rest] eqn:Hlines.
  { rewrite (parse_no_line c url response Hlines) in Hparse. discriminate. }
  destruct (contains (COMMAND_EXIT_ERROR_MESSAGE c) first) eqn:Hmarker.
  - rewrite (parse_failure c Hkeys url response first rest Hlines Hmarker)
      in Hparse.
    inversion Hparse. subst d. clear Hparse Hable.
    distinct_facts Hkeys. keys. repeat split.
    destruct (String.eqb url (LOCAL_ROUTER c)); auto.
  - destruct rest as [| second rest].
    + rewrite (parse_one_line c Hkeys url response first Hlines Hmarker)
        in Hparse.
      inversion Hparse. subst d. clear Hparse.
      repeat split; try (distinct_facts Hkeys; keys; reflexivity).
      assert (Herror : find (RESPONSE_KEY_ERROR c)
                         [ (RESPONSE_KEY_HOST c, VStr url);
                           (RESPONSE_KEY_ABLE_TO_RESOLVE_HOST c, VBool false);
                           (RESPONSE_KEY_ERROR c, VNone) ] = Some VNone)
        by (distinct_facts Hkeys; keys; reflexivity).
      assert (Hclassify := classify_unresolved c _ (VBool false) Hable
                             eq_refl).
      right. right. split; [exact Herror |]. split; [exact Hclassify |].
      intros ping_host num_pings Hping.
      unfold Ping.ping_host_and_return_parsed_response.
      rewrite Hping,
        (parse_one_line c Hkeys url response first Hlines Hmarker).
      cbn [bind]. rewrite (getitem_find _ _ _ Herror). cbn [bind truthy negb].
      exact Hclassify.
    + destruct (last_two first second rest) as (front & summary & timing & E).
      rewrite E in Hlines.
      assert (Hfirst : contains (COMMAND_EXIT_ERROR_MESSAGE c)
                         (first_line response) = false).
      { unfold first_line. rewrite Hlines, <- E. exact Hmarker. }
      rewrite (parse_multi_line_resolved c Hkeys url response front summary
                 timing d Hlines Hfirst Hparse) in Hable.
      discriminate.
Qed.

Lemma C4_witness :
  find "num_packets_sent"
       [ ("host", VStr "example.invalid");
         ("able_to_resolve_host", VBool false); ("error", VNone) ] = None
  /\ Ping.ping_host_and_return_parsed_response sample_constants
       (fun _ _ => sample_unresolved) "example.invalid" 10 =
     Ok [ ("host", VStr "example.invalid");
          ("able_to_resolve_host", VBool false);
          ("error", VStr "Unable to resolve host") ].
Proof.
  destruct (C4_unresolved_result sample_constants "example.invalid"
              sample_unresolved _ eq_refl eq_refl eq_refl)
    as (Hnum & _ & _ & _ & [H | [H | (_ & _ & H)]]).
  - discriminate H.
  - discriminate H.
  - split; [exact Hnum |].
    exact (H (fun _ _ => sample_unresolved) 10 eq_refl).
Defined.

(* ===================================================================== *)
(** * The texts on which the parser returns *)
(* ===================================================================== *)

Lemma rev_last_two {A : Type} (first : A) (rest front : list A)
    (summary timing : A) :
  first :: rest = (front ++ [summary; timing])%list ->
  exists before, rev rest = timing :: before /\ hd first before = summary.
Proof.
  destruct front as [| f front]; cbn [app]; intros E; inversion E; subst.
  - exists []. split; reflexivity.
  - exists (summary :: rev front). rewrite rev_app_distr. split; reflexivity.
Qed.

(** C5, the claim as stated fails: the empty text has no line, and the
    test of its first line raises [IndexError]. *)
Lemma C5_counterexample :
  Ping.parse_ping_response sample_constants "www.google.com" "" =
  Raise IndexError.
Proof. reflexivity. Qed.

(** C5, amended. The parser is not total. It returns a result exactly on
    the texts whose first line contains the failure marker, on the texts
    of one line, and on the texts of two lines or more whose last two
    lines convert as a summary and a timing line; on any other text an
    exception leaves it. The empty text, which splits into no line, is
    one of these: the test of the first line raises [IndexError]. *)
Theorem C5_parse_returns (c : constants) (url response : string) :
  returns (Ping.parse_ping_response c url response) = parse_returns c response
  /\ Ping.parse_ping_response c url "" = Raise IndexError.
Proof.
  split; [| reflexivity].
  unfold parse_returns.
  destruct (splitlines response) as [| first rest] eqn:Hlines.
  { now rewrite (parse_no_line c url response Hlines). }
  destruct (contains (COMMAND_EXIT_ERROR_MESSAGE c) first) eqn:Hmarker;
    cbn [orb].
  - unfold Ping.parse_ping_response. rewrite Hlines, executed, Hmarker.
    cbn [bind negb]. now destruct (String.eqb url (LOCAL_ROUTER c)).
  - destruct rest as [| second rest].
    + unfold Ping.parse_ping_response. rewrite Hlines, executed, Hmarker.
      reflexivity.
    + destruct (last_two first second rest) as (front & summary & timing & E).
      destruct (rev_last_two _ _ _ _ _ E) as (before & -> & ->).
      rewrite E in Hlines.
      apply (parse_multi_line_returns c url response front); [exact Hlines |].
      unfold first_line. rewrite Hlines, <- E. exact Hmarker.
Qed.

(* ===================================================================== *)
(** * Malformed summary and timing lines *)
(* ===================================================================== *)






(* ===================================================================== *)
(** * The log aggregator *)
(* ===================================================================== *)

(** ** More on dictionaries *)

Lemma find_setitem_some {V : Type} (d : dict V) (k k' : string) (v : V) :
  find k d <> None -> find k (setitem d k' v) <> None.
Proof.
  intros H. destruct (String.eqb k k') eqn:E.
  - apply String.eqb_eq in E. subst. rewrite find_setitem_same. discriminate.
  - now rewrite find_setitem_other.
Qed.

Lemma find_literal {V : Type} (items : list (string * V)) (k : string) :
  In k (map fst items) -> find k (literal items) <> None.
Proof.
  unfold literal.
  assert (G : forall d, find k d <> None \/ In k (map fst items) ->
              find k (fold_left (fun d kv => setitem d (fst kv) (snd kv))
                                items d) <> None).
  { induction items as [| [k' v'] items IH]; intros d [H | H]; cbn [fold_left].
    - exact H.
    - destruct H.
    - apply IH. left. now apply find_setitem_some.
    - apply IH. cbn [map fst In] in H. destruct H as [-> | H].
      + left. cbn [fst snd]. rewrite find_setitem_same. discriminate.
      + now right. }
  intros H. apply G. now right.
Qed.

Lemma In_setitem {V : Type} (d : dict V) (k : string) (v : V)
    (item : string * V) :
  In item (setitem d k v) -> In item d \/ item = (k, v).
Proof.
  induction d as [| [k' v'] d IH]; cbn [setitem].
  - intros [H | []]. now right.
  - destruct (String.eqb k k') eqn:E.
    + apply String.eqb_eq in E. subst k'. intros [H | H].
      * right. now symmetry.
      * left. now right.
    + intros [H | H].
      * left. now left.
      * destruct (IH H) as [H' | H']; [left; now right | now right].
Qed.

Lemma In_literal {V : Type} (items : list (string * V)) (item : string * V) :
  In item (literal items) -> In item items.
Proof.
  unfold literal.
  assert (G : forall d,
              In item (fold_left (fun d kv => setitem d (fst kv) (snd kv))
                                 items d) ->
              In item d \/ In item items).
  { induction items as [| [k' v'] items IH]; intros d; cbn [fold_left].
    - now left.
    - intros H. destruct (IH _ H) as [H' | H'].
      + cbn [fst snd] in H'. apply In_setitem in H' as [H' | ->].
        * now left.
        * right. now left.
      + right. now right. }
  intros H. destruct (G [] H) as [[] | H']. exact H'.
Qed.

Lemma find_In {V : Type} (d : dict V) (k : string) (v : V) :
  find k d = Some v -> In (k, v) d.
Proof.
  induction d as [| [k' v'] d IH]; cbn [find]; [discriminate |].
  destruct (String.eqb_spec k k') as [-> | _].
  - intros H. inversion H. now left.
  - intros H. right. now apply IH.
Qed.

Lemma Forall_setitem {V : Type} (P : V -> Prop) (d : dict V) (k : string)
    (v : V) :
  Forall (fun item => P (snd item)) d -> P v ->
  Forall (fun item => P (snd item)) (setitem d k v).
Proof.
  intros Hd Hv. induction Hd as [| [k' v'] d Hitem Hd IH]; cbn [setitem].
  - now constructor.
  - destruct (String.eqb k k'); constructor; auto.
Qed.

(** ** One line of the log *)

Section LogLine.

Context (c : constants).

Lemma parse_log_line_banner (s : dict LogParser.day_summary) (line : string) :
  is_banner c line = true -> LogParser.parse_log_line c s line = Ok s.
Proof.
  unfold is_banner, LogParser.parse_log_line. now intros ->.
Qed.

(** A line without ['-'] has no message segment. *)
Lemma parse_log_line_unseparated (s : dict LogParser.day_summary)
    (line : string) :
  is_banner c line = false -> contains "-" line = false ->
  LogParser.parse_log_line c s line = Raise IndexError.
Proof.
  unfold is_banner, LogParser.parse_log_line. intros -> H.
  rewrite (split_without "-" line H), index_head. cbn [bind].
  rewrite (split_cons "@" line), index_head. cbn [bind].
  reflexivity.
Qed.

(** A line with its two fields: the day is created when it is new, then
    the markers are looked for in the message segment. *)
Lemma parse_log_line_fields (s : dict LogParser.day_summary)
    (line date message : string) :
  is_banner c line = false ->
  fields line = Some (date, message) ->
  LogParser.parse_log_line c s line =
  for_each (LogParser.log_message_error_to_summary_key_map c)
    (marker_body c date message)
    (if negb (mem date s)
     then setitem s date
            (literal [ (PARSER_PACKET_LOSS c, 0);
                       (PARSER_ROUND_TRIP_TIME c, 0);
                       (PARSER_MODEM_DOWN c, 0);
                       (PARSER_ROUTER_DOWN c, 0) ])
     else s).
Proof.
  unfold is_banner, LogParser.parse_log_line, fields. intros -> H.
  destruct (split "-" line) as [| log_date_time [| log_message more]];
    try discriminate.
  inversion H. subst. clear H.
  rewrite index_head. cbn [bind].
  rewrite (split_cons "@" log_date_time) at 1. rewrite index_head.
  cbn [bind]. rewrite index_1. cbn [nth_error bind].
  reflexivity.
Qed.

Lemma fields_separated (line : string) :
  contains "-" line = true ->
  exists date message, fields line = Some (date, message).
Proof.
  intros H. destruct (split_with "-" line H) as (a & b & rest & E).
  unfold fields. rewrite E. eauto.
Qed.

(** The days keep their four counts. *)

Lemma fresh_day_has_keys :
  has_keys c (literal [ (PARSER_PACKET_LOSS c, 0);
                        (PARSER_ROUND_TRIP_TIME c, 0);
                        (PARSER_MODEM_DOWN c, 0);
                        (PARSER_ROUTER_DOWN c, 0) ]).
Proof. intros k Hk. apply find_literal. exact Hk. Qed.

Lemma increment_keeps (s : dict LogParser.day_summary) (date key : string) :
  days_have_keys c s -> find date s <> None -> In key (summary_keys c) ->
  exists s', LogParser.increment s date key = Ok s'
             /\ days_have_keys c s' /\ find date s' <> None.
Proof.
  intros Hs Hdate Hkey. unfold LogParser.increment, getitem.
  destruct (find date s) as [day |] eqn:Hday; [| contradiction].
  cbn [bind].
  assert (Hkeys : has_keys c day).
  { apply find_In in Hday. unfold days_have_keys in Hs.
    rewrite Forall_forall in Hs. exact (Hs _ Hday). }
  destruct (find key day) as [count |] eqn:Hcount;
    [| now elim (Hkeys key Hkey)].
  cbn [bind]. eexists. split; [reflexivity |]. split.
  - apply (Forall_setitem (has_keys c)); [exact Hs |].
    intros k Hk. apply find_setitem_some. now apply Hkeys.
  - rewrite find_setitem_same. discriminate.
Qed.

Lemma markers_keep (date message : string) (items : list (string * string)) :
  (forall item, In item items -> In (snd item) (summary_keys c)) ->
  forall s, days_have_keys c s -> find date s <> None ->
  exists s', for_each items (marker_body c date message) s = Ok s'
             /\ days_have_keys c s'.
Proof.
  induction items as [| [error key] items IH]; intros Hitems s Hs Hdate.
  - exists s. now split.
  - cbn [for_each marker_body].
    assert (Hkey : In key (summary_keys c))
      by (apply (Hitems (error, key)); now left).
    assert (Hrest : forall item, In item items ->
                      In (snd item) (summary_keys c))
      by (intros item H; apply Hitems; now right).
    destruct (contains error message).
    + destruct (increment_keeps s date key Hs Hdate Hkey)
        as (s1 & -> & Hs1 & Hdate1).
      cbn [bind]. now apply IH.
    + cbn [bind]. now apply IH.
Qed.

Lemma error_map_values (item : string * string) :
  In item (LogParser.log_message_error_to_summary_key_map c) ->
  In (snd item) (summary_keys c).
Proof.
  intros H. apply In_literal in H. cbn [In] in H.
  unfold summary_keys. cbn [In].
  destruct H as [<- | [<- | [<- | [<- | []]]]]; cbn [snd]; tauto.
Qed.

(** A line with a ['-'] is processed without any exception. *)
Lemma parse_log_line_separated (s : dict LogParser.day_summary)
    (line : string) :
  days_have_keys c s -> is_banner c line = false ->
  contains "-" line = true ->
  exists s', LogParser.parse_log_line c s line = Ok s'
             /\ days_have_keys c s'.
Proof.
  intros Hs Hbanner Hsep.
  destruct (fields_separated line Hsep) as (date & message & Hfields).
  rewrite (parse_log_line_fields s line date message Hbanner Hfields).
  apply markers_keep; [exact error_map_values | |].
  - destruct (mem date s); cbn [negb]; [exact Hs |].
    apply (Forall_setitem (has_keys c)); [exact Hs | exact fresh_day_has_keys].
  - unfold mem. destruct (find date s) eqn:Hdate; cbn [negb].
    + rewrite Hdate. discriminate.
    + rewrite find_setitem_same. discriminate.
Qed.

(** The whole log: a summary when every line is a banner or has a
    ['-'], [IndexError] otherwise. *)
Lemma lines_outcome (lines : list string) :
  forall s, days_have_keys c s ->
  if forallb (separated c) lines
  then exists s', for_each lines (LogParser.parse_log_line c) s = Ok s'
  else for_each lines (LogParser.parse_log_line c) s = Raise IndexError.
Proof.
  induction lines as [| line lines IH]; intros s Hs; cbn [forallb for_each].
  - now exists s.
  - unfold separated at 1.
    destruct (is_banner c line) eqn:Hbanner; cbn [orb andb].
    + rewrite (parse_log_line_banner s line Hbanner). cbn [bind].
      now apply IH.
    + destruct (contains "-" line) eqn:Hsep; cbn [andb].
      * destruct (parse_log_line_separated s line Hs Hbanner Hsep)
          as (s' & -> & Hs').
        cbn [bind]. now apply IH.
      * now rewrite (parse_log_line_unseparated s line Hbanner Hsep).
Qed.

End LogLine.

(** ** The counts of a line *)

Lemma contains_char_app (ch : ascii) (s t : string) :
  contains (String ch "") (s ++ t) =
  contains (String ch "") s || contains (String ch "") t.
Proof.
  induction s as [| ch' s IH]; cbn [append].
  - now destruct t.
  - rewrite !contains_char, IH. apply orb_assoc.
Qed.

Lemma append_assoc (s t u : string) : (s ++ t) ++ u = s ++ (t ++ u).
Proof.
  induction s as [| ch s IH]; cbn [append]; [reflexivity | now rewrite IH].
Qed.

Lemma append_empty (s : string) : s ++ "" = s.
Proof.
  induction s as [| ch s IH]; cbn [append]; [reflexivity | now rewrite IH].
Qed.

Section LogCounts.

Context (c : constants).
Hypothesis Hmarkers : distinct (error_markers c) = true.
Hypothesis Hsummary : distinct (summary_keys c) = true.

Lemma error_map_literal :
  LogParser.log_message_error_to_summary_key_map c =
  [ (PACKET_LOSS_ERROR c, PARSER_PACKET_LOSS c);
    (ROUND_TRIP_TIME_ERROR c, PARSER_ROUND_TRIP_TIME c);
    (MODEM_ERROR c, PARSER_MODEM_DOWN c);
    (LOCAL_ROUTER_ERROR c, PARSER_ROUTER_DOWN c) ].
Proof.
  unfold LogParser.log_message_error_to_summary_key_map.
  distinct_facts Hmarkers. keys. reflexivity.
Qed.

Lemma fresh_day :
  literal [ (PARSER_PACKET_LOSS c, 0); (PARSER_ROUND_TRIP_TIME c, 0);
            (PARSER_MODEM_DOWN c, 0); (PARSER_ROUTER_DOWN c, 0) ] =
  day_of c (0, 0, 0, 0).
Proof. distinct_facts Hsummary. keys. reflexivity. Qed.

(** One marker: the count of its key goes up by one when the message
    contains it. *)
Lemma marker_step (s : dict LogParser.day_summary) (date key : string)
    (day : LogParser.day_summary) (count : Z) (hit : bool) :
  find date s = Some day ->
  find key day = Some count ->
  (if hit then LogParser.increment s date key else Ok s) =
  Ok (setitem s date (setitem day key (count + Z_of_bool hit))).
Proof.
  intros Hday Hcount. destruct hit; cbn [Z_of_bool].
  - unfold LogParser.increment.
    rewrite (getitem_find _ _ _ Hday). cbn [bind].
    rewrite (getitem_find _ _ _ Hcount). reflexivity.
  - rewrite Z.add_0_r, (setitem_same day key count Hcount),
      (setitem_same s date day Hday).
    reflexivity.
Qed.

(** The four markers: each count goes up by one when the message contains
    its marker, whatever the other markers do. *)
Lemma markers_counted (s : dict LogParser.day_summary)
    (date message : string) (n : counts) :
  find date s = Some (day_of c n) ->
  for_each (LogParser.log_message_error_to_summary_key_map c)
    (marker_body c date message) s =
  Ok (setitem s date (day_of c (add_counts n (hits c message)))).
Proof.
  destruct n as [[[a b] m] r]. intros Hday.
  rewrite error_map_literal. cbn [for_each marker_body].
  distinct_facts Hsummary.
  rewrite (marker_step s date _ _ a _ Hday)
    by (unfold day_of; keys; reflexivity).
  cbn [bind].
  rewrite (marker_step _ date _ _ b _ (find_setitem_same _ _ _))
    by (unfold day_of; keys; reflexivity).
  cbn [bind]. rewrite setitem_setitem.
  rewrite (marker_step _ date _ _ m _ (find_setitem_same _ _ _))
    by (unfold day_of; keys; reflexivity).
  cbn [bind]. rewrite setitem_setitem.
  rewrite (marker_step _ date _ _ r _ (find_setitem_same _ _ _))
    by (unfold day_of; keys; reflexivity).
  cbn [bind]. rewrite setitem_setitem.
  unfold day_of, hits, add_counts. keys. reflexivity.
Qed.

(** A line with its two fields on a summary where its date has the
    counts [n]. *)
Lemma parse_log_line_counted (s : dict LogParser.day_summary)
    (line date message : string) (n : counts) :
  is_banner c line = false ->
  fields line = Some (date, message) ->
  counts_at c s date n ->
  LogParser.parse_log_line c s line =
  Ok (setitem s date (day_of c (add_counts n (hits c message)))).
Proof.
  intros Hbanner Hfields Hn.
  rewrite (parse_log_line_fields c s line date message Hbanner Hfields).
  unfold counts_at in Hn. unfold mem.
  destruct (find date s) as [day |] eqn:Hday; cbn [negb].
  - subst day. now apply markers_counted.
  - subst n. rewrite fresh_day.
    rewrite (markers_counted _ date message (0, 0, 0, 0))
      by apply find_setitem_same.
    now rewrite setitem_setitem.
Qed.

End LogCounts.

(** C9, the claim as stated fails: the line of the second day, which has
    the modem marker, is counted under the modem key, not under the router
    key. It fails as well when the lines are dated and contain their
    markers in another place than the one [parse_log] reads: with the
    markers after a second ['-'] nothing is counted. *)
Lemma C9_counterexample :
  LogParser.parse_log sample_constants sample_log =
  Ok [ ("06/01/2020", day_of sample_constants (3, 0, 0, 0));
       ("06/02/2020", day_of sample_constants (0, 0, 1, 0)) ]
  /\ LogParser.parse_log sample_constants sample_log <>
     Ok [ ("06/01/2020", day_of sample_constants (3, 0, 0, 0));
          ("06/02/2020", day_of sample_constants (0, 0, 0, 1)) ]
  /\ LogParser.parse_log sample_constants sample_dashed_log =
     Ok [ ("06/01/2020", day_of sample_constants (0, 0, 0, 0));
          ("06/02/2020", day_of sample_constants (0, 0, 0, 0)) ].
Proof. split; [reflexivity | split; [discriminate | reflexivity]]. Qed.

(** C9, amended. Let the log have exactly four lines, none of them a
    banner, and let the four markers and the four summary keys be pairwise
    distinct. If the first three lines have the date key [D1] (the text
    before ['@'] in the text before the first ['-'] of the line) and a
    message segment (the text between the first and the second ['-'], the
    field [fields] returns) that contains the packet loss marker and none
    of the other three, and the fourth line has the date key [D2], other
    than [D1], and a message segment that contains the modem marker and none
    of the other three, then [parse_log] returns [D1] with the counts
    (packet loss 3, round trip time 0, modem 0, router 0) and then [D2]
    with the counts (0, 0, 1, 0): the modem marker goes to the modem key.
    The dates are in the order in which the log has them. *)
Theorem C9_three_losses_one_modem (c : constants) (log : string)
    (l1 l2 l3 l4 D1 D2 : string)
    (Hmarkers : distinct (error_markers c) = true)
    (Hsummary : distinct (summary_keys c) = true)
    (Hlines : splitlines log = [l1; l2; l3; l4])
    (H1 : entry c l1 D1 (1, 0, 0, 0))
    (H2 : entry c l2 D1 (1, 0, 0, 0))
    (H3 : entry c l3 D1 (1, 0, 0, 0))
    (H4 : entry c l4 D2 (0, 0, 1, 0))
    (Hdates : D1 <> D2) :
  LogParser.parse_log c log =
  Ok [ (D1, day_of c (3, 0, 0, 0)); (D2, day_of c (0, 0, 1, 0)) ].
Proof.
  destruct H1 as (B1 & m1 & F1 & M1), H2 as (B2 & m2 & F2 & M2),
           H3 as (B3 & m3 & F3 & M3), H4 as (B4 & m4 & F4 & M4).
  assert (E21 : String.eqb D2 D1 = false)
    by (apply String.eqb_neq; congruence).
  unfold LogParser.parse_log. rewrite Hlines. cbn [for_each].
  rewrite (parse_log_line_counted c Hmarkers Hsummary [] l1 D1 m1
             (0, 0, 0, 0) B1 F1 eq_refl).
  rewrite M1. cbn [bind setitem add_counts Z.add].
  rewrite (parse_log_line_counted c Hmarkers Hsummary _ l2 D1 m2
             (1, 0, 0, 0) B2 F2)
    by (unfold counts_at; cbn [find]; now rewrite String.eqb_refl).
  rewrite M2. cbn [bind setitem add_counts Z.add Pos.add].
  rewrite String.eqb_refl.
  rewrite (parse_log_line_counted c Hmarkers Hsummary _ l3 D1 m3
             (2, 0, 0, 0) B3 F3)
    by (unfold counts_at; cbn [find]; now rewrite String.eqb_refl).
  rewrite M3. cbn [bind setitem add_counts Z.add Pos.add Pos.succ].
  rewrite String.eqb_refl.
  rewrite (parse_log_line_counted c Hmarkers Hsummary _ l4 D2 m4
             (0, 0, 0, 0) B4 F4)
    by (unfold counts_at; cbn [find]; now rewrite E21).
  rewrite M4. cbn [bind setitem add_counts Z.add].
  rewrite E21. reflexivity.
Qed.

Lemma C9_witness :
  LogParser.parse_log sample_constants sample_log =
  Ok [ ("06/01/2020",
        [ ("packet_loss", 3); ("rtt", 0); ("modem", 0); ("router", 0) ]);
       ("06/02/2020",
        [ ("packet_loss", 0); ("rtt", 0); ("modem", 1); ("router", 0) ]) ].
Proof.
  apply (C9_three_losses_one_modem sample_constants sample_log
           "06/01/2020@10:00:00-Packet loss above acceptable level"
           "06/01/2020@10:05:00-Packet loss above acceptable level"
           "06/01/2020@10:10:00-Packet loss above acceptable level"
           "06/02/2020@10:00:00-Unable to reach modem"
           "06/01/2020" "06/02/2020" eq_refl eq_refl eq_refl).
  - split; [reflexivity |]. eexists. split; reflexivity.
  - split; [reflexivity |]. eexists. split; reflexivity.
  - split; [reflexivity |]. eexists. split; reflexivity.
  - split; [reflexivity |]. eexists. split; reflexivity.
  - discriminate.
Defined.

(* ===================================================================== *)
(** * Further properties of the parser and of the classifier *)
(* ===================================================================== *)

Lemma map_fst_setitem {V : Type} (d : dict V) (k : string) (v : V) :
  map fst (setitem d k v) =
  if mem k d then map fst d else (map fst d ++ [k])%list.
Proof.
  unfold mem. induction d as [| [k' v'] d IH]; cbn [setitem find map fst app].
  - reflexivity.
  - destruct (String.eqb k k'); cbn [map fst]; [reflexivity |].
    rewrite IH. now destruct (find k d).
Qed.

Lemma for_each_app {S A : Type} (body : S -> A -> result S) (l1 l2 : list A) :
  forall s,
  for_each (l1 ++ l2) body s =
  (s1 <- for_each l1 body s ;; for_each l2 body s1).
Proof.
  induction l1 as [| a l1 IH]; intros s; cbn [app for_each bind];
    [reflexivity |].
  destruct (body s a); cbn [bind]; [apply IH | reflexivity].
Qed.

Section ParserShape.

Context (c : constants).

(** What a returned result of two lines or more is made of. *)
Lemma parse_multi_line_shape (url response : string) (front : list string)
    (summary timing : string) (d : dict pyval) :
  splitlines response = (front ++ [summary; timing])%list ->
  contains (COMMAND_EXIT_ERROR_MESSAGE c) (first_line response) = false ->
  Ping.parse_ping_response c url response = Ok d ->
  exists (n : Z) (avg mx : spec_float) (average maximum : string)
         (d1 : dict pyval),
    int (leading_token summary) = Ok n
    /\ for_each (loss_clauses summary) (loss_body c)
         (setitem (resolved_dict c url) (RESPONSE_KEY_NUM_PACKETS_SENT c)
                  (VInt n)) = Ok d1
    /\ nth_error (timing_fields timing) 1 = Some average
    /\ float average = Ok avg
    /\ nth_error (timing_fields timing) 2 = Some maximum
    /\ float maximum = Ok mx
    /\ d = setitem
             (setitem d1 (RESPONSE_KEY_AVERAGE_ROUND_TRIP_TIME c) (VFloat avg))
             (RESPONSE_KEY_MAX_ROUND_TRIP_TIME c) (VFloat mx).
Proof.
  intros Hlines Hfirst.
  rewrite (parse_multi_line c url response front summary timing Hlines Hfirst).
  rewrite summary_steps.
  destruct (int (leading_token summary)) as [n |]; cbn [bind]; [| discriminate].
  destruct (for_each _ _ _) as [d1 |] eqn:Hloop; cbn [bind]; [| discriminate].
  rewrite timing_steps, index_1, index_2.
  destruct (nth_error (timing_fields timing) 1) as [average |]; cbn [bind];
    [| discriminate].
  destruct (float average) as [avg |] eqn:Favg; cbn [bind]; [| discriminate].
  destruct (nth_error (timing_fields timing) 2) as [maximum |]; cbn [bind];
    [| discriminate].
  destruct (float maximum) as [mx |] eqn:Fmx; cbn [bind]; [| discriminate].
  intros H. inversion H. subst d.
  exists n, avg, mx, average, maximum, d1.
  repeat split; try reflexivity; assumption.
Qed.

(** The loss field after the loop: that of the last clause. *)
Lemma loss_loop_last (clauses : list string) (last : string)
    (d d' : dict pyval) :
  for_each (clauses ++ [last]) (loss_body c) d = Ok d' ->
  exists loss, float (loss_text last) = Ok loss
               /\ find (RESPONSE_KEY_PACKET_LOSS_PERCENT c) d'
                  = Some (VFloat loss).
Proof.
  rewrite for_each_app.
  destruct (for_each clauses (loss_body c) d) as [d1 |]; cbn [bind for_each];
    [| discriminate].
  rewrite loss_body_float.
  destruct (float (loss_text last)) as [loss |]; cbn [bind]; [| discriminate].
  intros H. inversion H. exists loss. split; [reflexivity |].
  apply find_setitem_same.
Qed.

End ParserShape.

(** The classifier sets the error to one of four messages and does
    nothing else. *)
Lemma classifier_result (c : constants) (d d' : dict pyval) :
  Ping.check_if_ping_was_successful c d = Ok d' ->
  exists e,
    In e [ RESOLVE_HOST_ERROR c; PACKET_LOSS_ERROR c;
           ROUND_TRIP_TIME_ERROR c; "" ]
    /\ d' = setitem d (RESPONSE_KEY_ERROR c) (VStr e).
Proof.
  unfold Ping.check_if_ping_was_successful.
  destruct (Ping.check_if_ping_resolve_host c d) as [resolved |];
    cbn [bind]; [| discriminate].
  destruct (negb (truthy resolved)).
  { intros H. inversion H. eexists. split; [| reflexivity]. cbn. tauto. }
  destruct (Ping.check_if_ping_packet_loss_acceptable c d) as [ok |];
    cbn [bind]; [| discriminate].
  destruct (negb ok).
  { intros H. inversion H. eexists. split; [| reflexivity]. cbn. tauto. }
  destruct (Ping.check_if_ping_round_trip_time_acceptable c d) as [ok' |];
    cbn [bind]; [| discriminate].
  destruct (negb ok'); intros H; inversion H; eexists;
    (split; [| reflexivity]); cbn; tauto.
Qed.

(** A number is not greater than itself. *)
Lemma SFcompare_refl (f : spec_float) : SFcompare f f <> Some Gt.
Proof.
  destruct f as [s | s | | s m e]; cbn [SFcompare]; try discriminate.
  - destruct s; discriminate.
  - rewrite Z.compare_refl.
    change (Pos.compare_cont Eq m m) with (Pos.compare m m).
    rewrite Pos.compare_refl. destruct s; discriminate.
Qed.

Lemma gt_irreflexive (v : pyval) :
  as_number v <> None -> gt v v = Ok false.
Proof.
  unfold gt. destruct (as_number v) as [[n | f] |]; [| | contradiction];
    intros _; cbn [num_compare].
  - now rewrite Z.compare_refl.
  - pose proof (SFcompare_refl f) as H.
    destruct (SFcompare f f) as [[] |]; try reflexivity. now elim H.
Qed.

(** Neither of two equal numbers is greater than the other. *)
Lemma gt_number_equal (a b : pyval) :
  number_equal a b -> gt a b = Ok false.
Proof.
  unfold number_equal, gt.
  destruct (as_number a) as [x |]; [| contradiction].
  destruct (as_number b) as [y |]; [| contradiction].
  now intros ->.
Qed.

Section ParserResults.

Context (c : constants).
Hypothesis Hkeys : distinct (response_keys c) = true.

Lemma resolved_dict_literal (url : string) :
  resolved_dict c url =
  [ (RESPONSE_KEY_HOST c, VStr url);
    (RESPONSE_KEY_ABLE_TO_RESOLVE_HOST c, VBool true);
    (RESPONSE_KEY_ERROR c, VNone) ].
Proof.
  unfold resolved_dict. rewrite (initial_dict c Hkeys).
  distinct_facts Hkeys. keys. reflexivity.
Qed.

(** The three entries the parser starts with stay as they are in a
    result of two lines or more. *)
Lemma parse_multi_line_frame (url response : string) (front : list string)
    (summary timing : string) (d : dict pyval) :
  splitlines response = (front ++ [summary; timing])%list ->
  contains (COMMAND_EXIT_ERROR_MESSAGE c) (first_line response) = false ->
  Ping.parse_ping_response c url response = Ok d ->
  find (RESPONSE_KEY_HOST c) d = Some (VStr url)
  /\ find (RESPONSE_KEY_ABLE_TO_RESOLVE_HOST c) d = Some (VBool true)
  /\ find (RESPONSE_KEY_ERROR c) d = Some VNone.
Proof.
  intros Hlines Hfirst Hparse.
  destruct (parse_multi_line_shape c url response front summary timing d
              Hlines Hfirst Hparse)
    as (n & avg & mx & average & maximum & d1 & _ & Hloop & _ & _ & _ & _ & ->).
  distinct_facts Hkeys.
  rewrite !find_setitem_other by assumption.
  rewrite (loss_loop_keeps c (RESPONSE_KEY_HOST c) _ ltac:(assumption)
             _ _ Hloop).
  rewrite (loss_loop_keeps c (RESPONSE_KEY_ABLE_TO_RESOLVE_HOST c) _
             ltac:(assumption) _ _ Hloop).
  rewrite (loss_loop_keeps c (RESPONSE_KEY_ERROR c) _ ltac:(assumption)
             _ _ Hloop).
  rewrite !find_setitem_other by assumption.
  rewrite resolved_dict_literal. keys. repeat split.
Qed.

(** The error of a result of the parser. *)
Lemma parse_result_error (url response : string) (d : dict pyval) :
  Ping.parse_ping_response c url response = Ok d ->
  find (RESPONSE_KEY_ERROR c) d = Some VNone
  \/ find (RESPONSE_KEY_ERROR c) d = Some (VStr (LOCAL_ROUTER_ERROR c))
  \/ find (RESPONSE_KEY_ERROR c) d = Some (VStr (MODEM_ERROR c)).
Proof.
  intros Hparse.
  destruct (splitlines response) as [| first rest] eqn:Hlines.
  { rewrite (parse_no_line c url response Hlines) in Hparse. discriminate. }
  destruct (contains (COMMAND_EXIT_ERROR_MESSAGE c) first) eqn:Hmarker.
  - rewrite (parse_failure c Hkeys url response first rest Hlines Hmarker)
      in Hparse.
    inversion Hparse. distinct_facts Hkeys. keys.
    destruct (String.eqb url (LOCAL_ROUTER c)); auto.
  - destruct rest as [| second rest].
    + rewrite (parse_one_line c Hkeys url response first Hlines Hmarker)
        in Hparse.
      inversion Hparse. distinct_facts Hkeys. keys. auto.
    + destruct (last_two first second rest) as (front & summary & timing & E).
      rewrite E in Hlines.
      assert (Hfirst : contains (COMMAND_EXIT_ERROR_MESSAGE c)
                         (first_line response) = false).
      { unfold first_line. rewrite Hlines, <- E. exact Hmarker. }
      left.
      exact (proj2 (proj2 (parse_multi_line_frame url response front summary
                             timing d Hlines Hfirst Hparse))).
Qed.

End ParserResults.

(** X1. A response of one line without the failure marker gives a result
    with the host, [able_to_resolve_host = False] and no error, and
    nothing else; [ping_host_and_return_parsed_response] then stores
    [RESOLVE_HOST_ERROR] in it. *)
Theorem single_line_is_unresolved (c : constants) (url response line : string)
    (ping_host : string -> Z -> string) (num_pings : Z)
    (Hkeys : distinct (response_keys c) = true)
    (Hlines : splitlines response = [line])
    (Hmarker : contains (COMMAND_EXIT_ERROR_MESSAGE c) line = false)
    (Hping : ping_host url num_pings = response) :
  Ping.parse_ping_response c url response =
  Ok [ (RESPONSE_KEY_HOST c, VStr url);
       (RESPONSE_KEY_ABLE_TO_RESOLVE_HOST c, VBool false);
       (RESPONSE_KEY_ERROR c, VNone) ]
  /\ Ping.ping_host_and_return_parsed_response c ping_host url num_pings =
     Ok [ (RESPONSE_KEY_HOST c, VStr url);
          (RESPONSE_KEY_ABLE_TO_RESOLVE_HOST c, VBool false);
          (RESPONSE_KEY_ERROR c, VStr (RESOLVE_HOST_ERROR c)) ].
Proof.
  pose proof (parse_one_line c Hkeys url response line Hlines Hmarker) as Hp.
  split; [exact Hp |].
  unfold Ping.ping_host_and_return_parsed_response.
  rewrite Hping, Hp. cbn [bind].
  distinct_facts Hkeys.
  assert (Herror : find (RESPONSE_KEY_ERROR c)
                     [ (RESPONSE_KEY_HOST c, VStr url);
                       (RESPONSE_KEY_ABLE_TO_RESOLVE_HOST c, VBool false);
                       (RESPONSE_KEY_ERROR c, VNone) ] = Some VNone)
    by (keys; reflexivity).
  assert (Hable : find (RESPONSE_KEY_ABLE_TO_RESOLVE_HOST c)
                    [ (RESPONSE_KEY_HOST c, VStr url);
                      (RESPONSE_KEY_ABLE_TO_RESOLVE_HOST c, VBool false);
                      (RESPONSE_KEY_ERROR c, VNone) ] = Some (VBool false))
    by (keys; reflexivity).
  rewrite (getitem_find _ _ _ Herror). cbn [bind truthy negb].
  rewrite (classify_unresolved c _ (VBool false) Hable eq_refl).
  keys. reflexivity.
Qed.

Lemma single_line_is_unresolved_witness :
  Ping.ping_host_and_return_parsed_response sample_constants
    (fun _ _ => sample_unresolved) "example.invalid" 10 =
  Ok [ ("host", VStr "example.invalid");
       ("able_to_resolve_host", VBool false);
       ("error", VStr "Unable to resolve host") ].
Proof.
  exact (proj2 (single_line_is_unresolved sample_constants "example.invalid"
                  sample_unresolved sample_unresolved
                  (fun _ _ => sample_unresolved) 10
                  eq_refl eq_refl eq_refl eq_refl)).
Defined.

(** X2. Whenever the parser returns a result for a response of two lines
    or more whose first line lacks the failure marker (later lines may
    contain it), the result has the host, [able_to_resolve_host = True],
    no error, the count converted from the leading token of the line
    before the last, and the average and the maximum converted from the
    fields 1 and 2 of the last line. *)
Theorem multi_line_result_is_resolved (c : constants)
    (url response : string) (front : list string) (summary timing : string)
    (d : dict pyval)
    (Hkeys : distinct (response_keys c) = true)
    (Hlines : splitlines response = (front ++ [summary; timing])%list)
    (Hfirst : contains (COMMAND_EXIT_ERROR_MESSAGE c) (first_line response)
              = false)
    (Hparse : Ping.parse_ping_response c url response = Ok d) :
  find (RESPONSE_KEY_HOST c) d = Some (VStr url)
  /\ find (RESPONSE_KEY_ABLE_TO_RESOLVE_HOST c) d = Some (VBool true)
  /\ find (RESPONSE_KEY_ERROR c) d = Some VNone
  /\ exists (n : Z) (avg mx : spec_float) (average maximum : string),
       int (leading_token summary) = Ok n
       /\ find (RESPONSE_KEY_NUM_PACKETS_SENT c) d = Some (VInt n)
       /\ nth_error (timing_fields timing) 1 = Some average
       /\ float average = Ok avg
       /\ find (RESPONSE_KEY_AVERAGE_ROUND_TRIP_TIME c) d = Some (VFloat avg)
       /\ nth_error (timing_fields timing) 2 = Some maximum
       /\ float maximum = Ok mx
       /\ find (RESPONSE_KEY_MAX_ROUND_TRIP_TIME c) d = Some (VFloat mx).
Proof.
  destruct (parse_multi_line_frame c Hkeys url response front summary timing
              d Hlines Hfirst Hparse) as (Hhost & Hable & Herror).
  repeat (split; [assumption |]).
  destruct (parse_multi_line_shape c url response front summary timing d
              Hlines Hfirst Hparse)
    as (n & avg & mx & average & maximum & d1
        & Hn & Hloop & Ha & Havg & Hm & Hmx & ->).
  exists n, avg, mx, average, maximum.
  distinct_facts Hkeys.
  repeat (split; [assumption |]).
  split.
  { rewrite !find_setitem_other by assumption.
    rewrite (loss_loop_keeps c (RESPONSE_KEY_NUM_PACKETS_SENT c) _
               ltac:(assumption) _ _ Hloop).
    apply find_setitem_same. }
  repeat (split; [assumption |]).
  split.
  { rewrite find_setitem_other by assumption. apply find_setitem_same. }
  repeat (split; [assumption |]).
  apply find_setitem_same.
Qed.

Lemma multi_line_result_is_resolved_witness :
  find "able_to_resolve_host"
    (parsed_response sample_constants (VStr "www.google.com") (VBool true)
       VNone (VInt 2) (VFloat (float_of_decimal false 500 (-1)))
       (VFloat (float_of_decimal false 25 (-1)))
       (VFloat (float_of_decimal false 35 (-1)))) = Some (VBool true).
Proof.
  exact (proj1 (proj2
    (multi_line_result_is_resolved sample_constants "www.google.com"
       sample_report
       [ "PING www.google.com (142.250.72.4): 56 data bytes"; "";
         "--- www.google.com ping statistics ---" ]
       "2 packets transmitted, 1 packets received, 50.0% packet loss"
       "round-trip min/avg/max/stddev = 1.5/2.5/3.5/0.5 ms"
       _ eq_refl eq_refl eq_refl eq_refl))).
Defined.

(** X3. When several comma segments of the summary line contain
    [packet loss], the last one decides: the packet loss of a returned
    result is the conversion of the text before ['%'] in the last such
    segment. *)
Theorem last_loss_clause_wins (c : constants) (url response : string)
    (front : list string) (summary timing : string)
    (clauses : list string) (last : string) (d : dict pyval)
    (Hkeys : distinct (response_keys c) = true)
    (Hlines : splitlines response = (front ++ [summary; timing])%list)
    (Hfirst : contains (COMMAND_EXIT_ERROR_MESSAGE c) (first_line response)
              = false)
    (Hclauses : loss_clauses summary = (clauses ++ [last])%list)
    (Hparse : Ping.parse_ping_response c url response = Ok d) :
  exists loss : spec_float,
    float (loss_text last) = Ok loss
    /\ find (RESPONSE_KEY_PACKET_LOSS_PERCENT c) d = Some (VFloat loss).
Proof.
  destruct (parse_multi_line_shape c url response front summary timing d
              Hlines Hfirst Hparse)
    as (n & avg & mx & average & maximum & d1 & _ & Hloop & _ & _ & _ & _ & ->).
  rewrite Hclauses in Hloop.
  destruct (loss_loop_last c clauses last _ _ Hloop) as (loss & Hloss & Hfind).
  exists loss. split; [exact Hloss |].
  distinct_facts Hkeys.
  now rewrite !find_setitem_other by assumption.
Qed.

Lemma last_loss_clause_wins_witness :
  exists loss : spec_float,
    float " 75.0" = Ok loss
    /\ find "packet_loss_percent"
         (parsed_response sample_constants (VStr "www.google.com")
            (VBool true) VNone (VInt 3)
            (VFloat (float_of_decimal false 750 (-1)))
            (VFloat (float_of_decimal false 25 (-1)))
            (VFloat (float_of_decimal false 35 (-1)))) = Some (VFloat loss).
Proof.
  exact (last_loss_clause_wins sample_constants "www.google.com"
           (sample_summary_twice ++ newline ++ "rtt = 1.5/2.5/3.5/0.5 ms")
           [] sample_summary_twice "rtt = 1.5/2.5/3.5/0.5 ms"
           [ " 25.0% packet loss" ] " 75.0% packet loss" _
           eq_refl eq_refl eq_refl eq_refl eq_refl).
Defined.

(** X4. When no comma segment of the summary line contains
    [packet loss], a returned result has no packet loss at all, and
    [ping_host_and_return_parsed_response] raises [KeyError] when the
    classifier reads it. *)
Theorem missing_loss_clause_is_key_error (c : constants)
    (url response : string) (front : list string) (summary timing : string)
    (d : dict pyval) (ping_host : string -> Z -> string) (num_pings : Z)
    (Hkeys : distinct (response_keys c) = true)
    (Hlines : splitlines response = (front ++ [summary; timing])%list)
    (Hfirst : contains (COMMAND_EXIT_ERROR_MESSAGE c) (first_line response)
              = false)
    (Hclauses : loss_clauses summary = [])
    (Hparse : Ping.parse_ping_response c url response = Ok d)
    (Hping : ping_host url num_pings = response) :
  find (RESPONSE_KEY_PACKET_LOSS_PERCENT c) d = None
  /\ Ping.ping_host_and_return_parsed_response c ping_host url num_pings =
     Raise KeyError.
Proof.
  destruct (parse_multi_line_frame c Hkeys url response front summary timing
              d Hlines Hfirst Hparse) as (_ & Hable & Herror).
  assert (Hnone : find (RESPONSE_KEY_PACKET_LOSS_PERCENT c) d = None).
  { destruct (parse_multi_line_shape c url response front summary timing d
                Hlines Hfirst Hparse)
      as (n & avg & mx & average & maximum & d1
          & _ & Hloop & _ & _ & _ & _ & ->).
    rewrite Hclauses in Hloop. cbn [for_each] in Hloop.
    inversion Hloop. subst d1. clear Hloop.
    distinct_facts Hkeys.
    rewrite !find_setitem_other by assumption.
    rewrite (resolved_dict_literal c Hkeys). keys. reflexivity. }
  split; [exact Hnone |].
  unfold Ping.ping_host_and_return_parsed_response.
  rewrite Hping, Hparse. cbn [bind].
  rewrite (getitem_find _ _ _ Herror). cbn [bind truthy negb].
  unfold Ping.check_if_ping_was_successful, Ping.check_if_ping_resolve_host.
  rewrite (getitem_find _ _ _ Hable). cbn [bind truthy negb].
  unfold Ping.check_if_ping_packet_loss_acceptable, getitem.
  rewrite Hnone. reflexivity.
Qed.

Lemma missing_loss_clause_is_key_error_witness :
  Ping.ping_host_and_return_parsed_response sample_constants
    (fun _ _ => sample_no_loss) "www.google.com" 10 = Raise KeyError.
Proof.
  exact (proj2 (missing_loss_clause_is_key_error sample_constants
                  "www.google.com" sample_no_loss
                  [ "PING www.google.com (142.250.72.4): 56 data bytes" ]
                  "10 packets transmitted, 10 packets received"
                  "round-trip min/avg/max/stddev = 3.084/8.829/11.708/2.290 ms"
                  _ (fun _ _ => sample_no_loss) 10
                  eq_refl eq_refl eq_refl eq_refl eq_refl eq_refl)).
Defined.

(** X5. When the classifier returns, it has changed the error entry and
    nothing else: the error is one of [RESOLVE_HOST_ERROR],
    [PACKET_LOSS_ERROR], [ROUND_TRIP_TIME_ERROR] and the empty message,
    every other key keeps its value, and the keys keep their order (the
    error key is added at the end when it was not there). *)
Theorem classifier_changes_error_only (c : constants) (d d' : dict pyval)
    (Hrun : Ping.check_if_ping_was_successful c d = Ok d') :
  (exists e,
      In e [ RESOLVE_HOST_ERROR c; PACKET_LOSS_ERROR c;
             ROUND_TRIP_TIME_ERROR c; "" ]
      /\ find (RESPONSE_KEY_ERROR c) d' = Some (VStr e))
  /\ (forall k, String.eqb k (RESPONSE_KEY_ERROR c) = false ->
                find k d' = find k d)
  /\ map fst d' =
     if mem (RESPONSE_KEY_ERROR c) d then map fst d
     else (map fst d ++ [RESPONSE_KEY_ERROR c])%list.
Proof.
  destruct (classifier_result c d d' Hrun) as (e & He & ->).
  split; [| split].
  - exists e. split; [exact He | apply find_setitem_same].
  - intros k Hk. now apply find_setitem_other.
  - apply map_fst_setitem.
Qed.

Lemma classifier_changes_error_only_witness :
  map fst
    (parsed_response sample_constants (VStr "www.google.com") (VBool false)
       (VStr "Unable to resolve host") (VInt 2)
       (VFloat (float_of_decimal false 500 (-1)))
       (VFloat (float_of_decimal false 25 (-1)))
       (VFloat (float_of_decimal false 35 (-1)))) =
  map fst sample_unresolved_lossy.
Proof.
  exact (proj2 (proj2 (classifier_changes_error_only sample_constants
                         sample_unresolved_lossy _ eq_refl))).
Defined.

(** X6. For a well formed response of two lines or more,
    [ping_host_and_return_parsed_response] returns the parsed fields with
    the diagnosis as error: [PACKET_LOSS_ERROR] when the packet loss is
    above its threshold, else [ROUND_TRIP_TIME_ERROR] when the average
    round trip time is above its threshold, else the empty message. *)
Theorem pipeline_diagnosis (c : constants) (url response : string)
    (front : list string) (summary timing metric average maximum : string)
    (n : Z) (loss avg mx : spec_float) (high_loss high_rtt : bool)
    (ping_host : string -> Z -> string) (num_pings : Z)
    (Hkeys : distinct (response_keys c) = true)
    (Hping : ping_host url num_pings = response)
    (Hlines : splitlines response = (front ++ [summary; timing])%list)
    (Hfirst : contains (COMMAND_EXIT_ERROR_MESSAGE c) (first_line response)
              = false)
    (Hn : int (leading_token summary) = Ok n)
    (Hclause : loss_clauses summary = [metric])
    (Hloss : float (loss_text metric) = Ok loss)
    (Haverage : nth_error (timing_fields timing) 1 = Some average)
    (Hmaximum : nth_error (timing_fields timing) 2 = Some maximum)
    (Havg : float average = Ok avg)
    (Hmx : float maximum = Ok mx)
    (Hhigh_loss : gt (VFloat loss) (MAX_ACCEPTABLE_PACKET_LOSS c)
                  = Ok high_loss)
    (Hhigh_rtt : gt (VFloat avg) (MAX_ACCEPTABLE_AVERAGE_ROUND_TRIP_TIME c)
                 = Ok high_rtt) :
  Ping.ping_host_and_return_parsed_response c ping_host url num_pings =
  Ok (parsed_response c (VStr url) (VBool true)
        (VStr (diagnosis c high_loss high_rtt))
        (VInt n) (VFloat loss) (VFloat avg) (VFloat mx)).
Proof.
  unfold Ping.ping_host_and_return_parsed_response.
  rewrite Hping,
    (parse_success c Hkeys url response front summary timing metric average
       maximum n loss avg mx Hlines Hfirst Hn Hclause Hloss Haverage
       Hmaximum Havg Hmx).
  cbn [bind]. unfold parsed_response. distinct_facts Hkeys.
  set (d := [ (RESPONSE_KEY_HOST c, VStr url);
              (RESPONSE_KEY_ABLE_TO_RESOLVE_HOST c, VBool true);
              (RESPONSE_KEY_ERROR c, VNone);
              (RESPONSE_KEY_NUM_PACKETS_SENT c, VInt n);
              (RESPONSE_KEY_PACKET_LOSS_PERCENT c, VFloat loss);
              (RESPONSE_KEY_AVERAGE_ROUND_TRIP_TIME c, VFloat avg);
              (RESPONSE_KEY_MAX_ROUND_TRIP_TIME c, VFloat mx) ]).
  assert (Herror : find (RESPONSE_KEY_ERROR c) d = Some VNone)
    by (unfold d; keys; reflexivity).
  assert (Hable : find (RESPONSE_KEY_ABLE_TO_RESOLVE_HOST c) d
                  = Some (VBool true))
    by (unfold d; keys; reflexivity).
  assert (Hl : find (RESPONSE_KEY_PACKET_LOSS_PERCENT c) d
               = Some (VFloat loss))
    by (unfold d; keys; reflexivity).
  assert (Ha : find (RESPONSE_KEY_AVERAGE_ROUND_TRIP_TIME c) d
               = Some (VFloat avg))
    by (unfold d; keys; reflexivity).
  rewrite (getitem_find _ _ _ Herror). cbn [bind truthy negb].
  unfold diagnosis. destruct high_loss.
  - rewrite (classify_packet_loss c d _ _ Hable eq_refl Hl Hhigh_loss).
    unfold d. keys. reflexivity.
  - destruct high_rtt.
    + rewrite (classify_round_trip_time c d _ _ _ Hable eq_refl Hl Hhigh_loss
                 Ha Hhigh_rtt).
      unfold d. keys. reflexivity.
    + rewrite (classify_acceptable c d _ _ _ Hable eq_refl Hl Hhigh_loss
                 Ha Hhigh_rtt).
      unfold d. keys. reflexivity.
Qed.

Lemma pipeline_diagnosis_witness :
  Ping.ping_host_and_return_parsed_response sample_constants
    (fun _ _ => sample_report) "www.google.com" 2 =
  Ok (parsed_response sample_constants (VStr "www.google.com") (VBool true)
        (VStr "Packet loss above acceptable level") (VInt 2)
        (VFloat (float_of_decimal false 500 (-1)))
        (VFloat (float_of_decimal false 25 (-1)))
        (VFloat (float_of_decimal false 35 (-1)))).
Proof.
  exact (pipeline_diagnosis sample_constants "www.google.com" sample_report
           [ "PING www.google.com (142.250.72.4): 56 data bytes"; "";
             "--- www.google.com ping statistics ---" ]
           "2 packets transmitted, 1 packets received, 50.0% packet loss"
           "round-trip min/avg/max/stddev = 1.5/2.5/3.5/0.5 ms"
           " 50.0% packet loss" "2.5" "3.5" 2 _ _ _ true false
           (fun _ _ => sample_report) 2
           eq_refl eq_refl eq_refl eq_refl eq_refl eq_refl eq_refl eq_refl
           eq_refl eq_refl eq_refl eq_refl eq_refl).
Defined.

(** X7. Whenever [ping_host_and_return_parsed_response] returns, the error
    of its result is a message, never [None]: one of the two messages of
    a failed command, the three messages of the classifier, or the empty
    message. *)
Theorem pipeline_error_is_message (c : constants)
    (ping_host : string -> Z -> string) (url : string) (num_pings : Z)
    (d : dict pyval)
    (Hkeys : distinct (response_keys c) = true)
    (Hrun : Ping.ping_host_and_return_parsed_response c ping_host url
              num_pings = Ok d) :
  exists e,
    In e [ LOCAL_ROUTER_ERROR c; MODEM_ERROR c; RESOLVE_HOST_ERROR c;
           PACKET_LOSS_ERROR c; ROUND_TRIP_TIME_ERROR c; "" ]
    /\ find (RESPONSE_KEY_ERROR c) d = Some (VStr e).
Proof.
  unfold Ping.ping_host_and_return_parsed_response in Hrun.
  destruct (Ping.parse_ping_response c url (ping_host url num_pings))
    as [d0 |] eqn:Hparse; cbn [bind] in Hrun; [| discriminate].
  destruct (parse_result_error c Hkeys url _ d0 Hparse) as [H | [H | H]];
    rewrite (getitem_find _ _ _ H) in Hrun; cbn [bind truthy] in Hrun.
  - cbn [negb] in Hrun.
    destruct (classifier_result c d0 d Hrun) as (e & He & ->).
    exists e. split; [| apply find_setitem_same].
    cbn [In] in He |- *. tauto.
  - destruct (negb (negb (String.eqb (LOCAL_ROUTER_ERROR c) ""))).
    + destruct (classifier_result c d0 d Hrun) as (e & He & ->).
      exists e. split; [| apply find_setitem_same].
      cbn [In] in He |- *. tauto.
    + inversion Hrun. subst d0. eexists. split; [| exact H]. cbn. tauto.
  - destruct (negb (negb (String.eqb (MODEM_ERROR c) ""))).
    + destruct (classifier_result c d0 d Hrun) as (e & He & ->).
      exists e. split; [| apply find_setitem_same].
      cbn [In] in He |- *. tauto.
    + inversion Hrun. subst d0. eexists. split; [| exact H]. cbn. tauto.
Qed.

Lemma pipeline_error_is_message_witness :
  exists e,
    In e [ "Unable to reach local router"; "Unable to reach modem";
           "Unable to resolve host"; "Packet loss above acceptable level";
           "Round trip time above acceptable level"; "" ]
    /\ find "error"
         [ ("host", VStr "www.google.com");
           ("able_to_resolve_host", VBool false);
           ("error", VStr "Unable to reach modem") ] = Some (VStr e).
Proof.
  exact (pipeline_error_is_message sample_constants
           (fun _ _ => sample_failure) "www.google.com" 10 _
           eq_refl eq_refl).
Defined.

(** X8. The thresholds are inclusive: a resolved result whose packet loss
    is equal to its threshold and whose average round trip time is equal to
    its threshold, as numbers and whatever their types (the float [5.0]
    against the integer [5]), is classified as a success, with the empty
    message. *)
Theorem thresholds_are_inclusive (c : constants) (d : dict pyval)
    (able loss average : pyval)
    (Hable : find (RESPONSE_KEY_ABLE_TO_RESOLVE_HOST c) d = Some able)
    (Htrue : truthy able = true)
    (Hloss : find (RESPONSE_KEY_PACKET_LOSS_PERCENT c) d = Some loss)
    (Hloss_equal : number_equal loss (MAX_ACCEPTABLE_PACKET_LOSS c))
    (Havg : find (RESPONSE_KEY_AVERAGE_ROUND_TRIP_TIME c) d = Some average)
    (Havg_equal :
       number_equal average (MAX_ACCEPTABLE_AVERAGE_ROUND_TRIP_TIME c)) :
  Ping.check_if_ping_was_successful c d =
  Ok (setitem d (RESPONSE_KEY_ERROR c) (VStr "")).
Proof.
  exact (classify_acceptable c d able loss average Hable Htrue
           Hloss (gt_number_equal _ _ Hloss_equal)
           Havg (gt_number_equal _ _ Havg_equal)).
Qed.

Lemma thresholds_are_inclusive_witness :
  Ping.check_if_ping_was_successful sample_constants
    (parsed_response sample_constants (VStr "www.google.com") (VBool true)
       VNone (VInt 20) (VFloat (float_of_decimal false 50 (-1)))
       (VFloat (float_of_decimal false 1000 (-1)))
       (VFloat (float_of_decimal false 1500 (-1)))) =
  Ok (parsed_response sample_constants (VStr "www.google.com") (VBool true)
        (VStr "") (VInt 20) (VFloat (float_of_decimal false 50 (-1)))
        (VFloat (float_of_decimal false 1000 (-1)))
        (VFloat (float_of_decimal false 1500 (-1)))).
Proof.
  exact (thresholds_are_inclusive sample_constants
           (parsed_response sample_constants (VStr "www.google.com")
              (VBool true) VNone (VInt 20)
              (VFloat (float_of_decimal false 50 (-1)))
              (VFloat (float_of_decimal false 1000 (-1)))
              (VFloat (float_of_decimal false 1500 (-1))))
           (VBool true) (VFloat (float_of_decimal false 50 (-1)))
           (VFloat (float_of_decimal false 1000 (-1)))
           eq_refl eq_refl eq_refl eq_refl eq_refl eq_refl).
Defined.

(** X9. When the first line of the response contains the failure marker
    and the two messages of a failed command are not empty, the classifier
    is not run: [ping_host_and_return_parsed_response] returns the result
    of the parser as it is. *)
Theorem failure_is_not_classified (c : constants)
    (url response first : string) (rest : list string)
    (ping_host : string -> Z -> string) (num_pings : Z)
    (Hkeys : distinct (response_keys c) = true)
    (Hrouter : LOCAL_ROUTER_ERROR c <> "")
    (Hmodem : MODEM_ERROR c <> "")
    (Hlines : splitlines response = first :: rest)
    (Hmarker : contains (COMMAND_EXIT_ERROR_MESSAGE c) first = true)
    (Hping : ping_host url num_pings = response) :
  Ping.ping_host_and_return_parsed_response c ping_host url num_pings =
  Ping.parse_ping_response c url response.
Proof.
  unfold Ping.ping_host_and_return_parsed_response.
  rewrite Hping,
    (parse_failure c Hkeys url response first rest Hlines Hmarker).
  cbn [bind].
  set (e := if String.eqb url (LOCAL_ROUTER c)
            then LOCAL_ROUTER_ERROR c else MODEM_ERROR c).
  assert (He : String.eqb e "" = false).
  { unfold e. apply String.eqb_neq.
    now destruct (String.eqb url (LOCAL_ROUTER c)). }
  assert (Herror : find (RESPONSE_KEY_ERROR c)
                     [ (RESPONSE_KEY_HOST c, VStr url);
                       (RESPONSE_KEY_ABLE_TO_RESOLVE_HOST c, VBool false);
                       (RESPONSE_KEY_ERROR c, VStr e) ] = Some (VStr e))
    by (distinct_facts Hkeys; keys; reflexivity).
  rewrite (getitem_find _ _ _ Herror). cbn [bind truthy].
  rewrite He. reflexivity.
Qed.

Lemma failure_is_not_classified_witness :
  Ping.ping_host_and_return_parsed_response sample_constants
    (fun _ _ => sample_failure) "192.168.1.1" 10 =
  Ping.parse_ping_response sample_constants "192.168.1.1" sample_failure.
Proof.
  exact (failure_is_not_classified sample_constants "192.168.1.1"
           sample_failure sample_failure [] (fun _ _ => sample_failure) 10
           eq_refl ltac:(discriminate) ltac:(discriminate)
           eq_refl eq_refl eq_refl).
Defined.

(* ===================================================================== *)
(** * The two lines of a report, by their format *)
(* ===================================================================== *)

Lemma split_app_any (sep : ascii) (a b : string) :
  split sep (a ++ String sep b) = (split sep a ++ split sep b)%list.
Proof.
  induction a as [| ch a IH]; cbn [append split].
  - now rewrite Ascii.eqb_refl.
  - destruct (Ascii.eqb ch sep); [now rewrite IH |].
    rewrite IH. pose proof (split_nonempty sep a) as Hne.
    destruct (split sep a); [contradiction | reflexivity].
Qed.

Lemma contains_app_r (needle s t : string) :
  contains needle t = true -> contains needle (s ++ t) = true.
Proof.
  intros H. induction s as [| ch s IH]; cbn [append]; [exact H |].
  cbn [contains]. rewrite IH. apply orb_true_r.
Qed.

(** X10. A summary line made of a count, a space and some words, then any
    clauses without [packet loss], then a last clause [<loss>% packet loss]
    is parsed into the count and the loss: clauses standing in between
    (received packets, errors) do not matter. *)
Theorem summary_line_format (c : constants) (d : dict pyval)
    (count words middle loss : string) (n : Z) (f : spec_float)
    (Hcount : contains " " count = false)
    (Hcomma : contains "," (count ++ " " ++ words) = false)
    (Hwords : contains "packet loss" (count ++ " " ++ words) = false)
    (Hmiddle : loss_clauses middle = [])
    (Hloss : contains "," loss = false)
    (Hpercent : contains "%" loss = false)
    (Hn : int count = Ok n)
    (Hf : float loss = Ok f) :
  Ping.parse_ping_summary_and_update_parsed_ping_dict c d
    (count ++ " " ++ words ++ "," ++ middle ++ "," ++ loss
       ++ "% packet loss") =
  Ok (setitem (setitem d (RESPONSE_KEY_NUM_PACKETS_SENT c) (VInt n))
              (RESPONSE_KEY_PACKET_LOSS_PERCENT c) (VFloat f)).
Proof.
  set (first := count ++ " " ++ words) in *.
  set (last := loss ++ "% packet loss").
  assert (Hsplit : split ","
                     (count ++ " " ++ words ++ "," ++ middle ++ "," ++ last)
                   = (first :: split "," middle ++ [last])%list).
  { replace (count ++ " " ++ words ++ "," ++ middle ++ "," ++ last)
      with (first ++ String "," (middle ++ String "," last))
      by (unfold first; now rewrite !append_assoc).
    rewrite (split_app "," first _ Hcomma), split_app_any.
    rewrite (split_without "," last); [reflexivity |].
    unfold last. rewrite contains_char_app, Hloss. reflexivity. }
  apply (summary_parsed c d _ last n f).
  - unfold leading_token. rewrite Hsplit. cbn [hd].
    unfold first. change (" " ++ words) with (String " " words).
    rewrite (split_app " " count words Hcount). exact Hn.
  - unfold loss_clauses in *. rewrite Hsplit. cbn [filter].
    rewrite Hwords, filter_app, Hmiddle. cbn [app filter].
    unfold last at 1.
    rewrite (contains_app_r "packet loss" loss "% packet loss" eq_refl).
    reflexivity.
  - unfold loss_text, last.
    change ("% packet loss") with (String "%" " packet loss").
    rewrite (split_app "%" loss _ Hpercent). exact Hf.
Qed.

Lemma summary_line_format_witness :
  Ping.parse_ping_summary_and_update_parsed_ping_dict sample_constants []
    sample_summary_errors =
  Ok [ ("num_packets_sent", VInt 10);
       ("packet_loss_percent", VFloat (float_of_decimal false 1000 (-1))) ].
Proof.
  exact (summary_line_format sample_constants [] "10" "packets transmitted"
           " 0 packets received, +10 errors" " 100.0" 10 _
           eq_refl eq_refl eq_refl eq_refl eq_refl eq_refl eq_refl eq_refl).
Defined.

(** X11. A timing line [<label>=<min>/<avg>/<max>/<rest>] is parsed into
    the conversions of [<avg>] and [<max>]; the label may contain ['/']
    (as [min/avg/max/stddev] does). *)
Theorem timing_line_format (c : constants) (d : dict pyval)
    (label low average maximum tail : string) (avg mx : spec_float)
    (Hlabel : contains "=" label = false)
    (Hlow : contains "=" low = false)
    (Hlow' : contains "/" low = false)
    (Haverage : contains "=" average = false)
    (Haverage' : contains "/" average = false)
    (Hmaximum : contains "=" maximum = false)
    (Hmaximum' : contains "/" maximum = false)
    (Htail : contains "=" tail = false)
    (Havg : float average = Ok avg)
    (Hmx : float maximum = Ok mx) :
  Ping.parse_ping_timing_and_update_parsed_ping_dict c d
    (label ++ "=" ++ low ++ "/" ++ average ++ "/" ++ maximum ++ "/" ++ tail) =
  Ok (setitem
        (setitem d (RESPONSE_KEY_AVERAGE_ROUND_TRIP_TIME c) (VFloat avg))
        (RESPONSE_KEY_MAX_ROUND_TRIP_TIME c) (VFloat mx)).
Proof.
  set (timings := low ++ "/" ++ average ++ "/" ++ maximum ++ "/" ++ tail).
  assert (Hfields : timing_fields (label ++ "=" ++ timings)
                    = low :: average :: maximum :: split "/" tail).
  { unfold timing_fields.
    change ("=" ++ timings) with (String "=" timings).
    rewrite (split_app "=" label timings Hlabel).
    rewrite (split_without "=" timings).
    2: { unfold timings.
         rewrite !contains_char_app, Hlow, Haverage, Hmaximum, Htail.
         reflexivity. }
    unfold timings.
    change ("/" ++ average ++ "/" ++ maximum ++ "/" ++ tail)
      with (String "/" (average ++ String "/" (maximum ++ String "/" tail))).
    rewrite (split_app "/" low _ Hlow'), (split_app "/" average _ Haverage'),
      (split_app "/" maximum _ Hmaximum').
    reflexivity. }
  apply (timing_parsed c d _ average maximum avg mx);
    try rewrite Hfields; try reflexivity; assumption.
Qed.

Lemma timing_line_format_witness :
  Ping.parse_ping_timing_and_update_parsed_ping_dict sample_constants []
    scenario_timing =
  Ok [ ("average_round_trip_time",
        VFloat (float_of_decimal false 8829 (-3)));
       ("max_round_trip_time",
        VFloat (float_of_decimal false 11708 (-3))) ].
Proof.
  exact (timing_line_format sample_constants []
           "round-trip min/avg/max/stddev " " 3.084" "8.829" "11.708"
           "2.290 ms" _ _
           eq_refl eq_refl eq_refl eq_refl eq_refl eq_refl eq_refl eq_refl
           eq_refl eq_refl).
Defined.

(* ===================================================================== *)
(** * The summary of a whole log *)
(* ===================================================================== *)

Lemma mem_existsb {V : Type} (d : dict V) (k : string) :
  mem k d = existsb (String.eqb k) (map fst d).
Proof.
  unfold mem. induction d as [| [k' v'] d IH]; cbn [find map fst existsb];
    [reflexivity |].
  destruct (String.eqb k k'); [reflexivity | exact IH].
Qed.

Lemma mem_setitem {V : Type} (d : dict V) (k k' : string) (v : V) :
  mem k (setitem d k' v) = mem k d || String.eqb k' k.
Proof.
  unfold mem. destruct (String.eqb k k') eqn:E.
  - apply String.eqb_eq in E. subst k'.
    rewrite find_setitem_same, String.eqb_refl. now rewrite orb_true_r.
  - rewrite (find_setitem_other d k k' v E), String.eqb_sym, E.
    now rewrite orb_false_r.
Qed.

Lemma day_of_injective (c : constants) (n n' : counts) :
  day_of c n = day_of c n' -> n = n'.
Proof.
  destruct n as [[[a b] m] r], n' as [[[a' b'] m'] r']. cbn [day_of].
  intros H. inversion H. reflexivity.
Qed.

Lemma add_counts_assoc (n k l : counts) :
  add_counts n (add_counts k l) = add_counts (add_counts n k) l.
Proof.
  destruct n as [[[a b] m] r], k as [[[a' b'] m'] r'],
           l as [[[a'' b''] m''] r''].
  cbn [add_counts]. now rewrite !Z.add_assoc.
Qed.

Lemma add_counts_zero_r (n : counts) : add_counts n (0, 0, 0, 0) = n.
Proof.
  destruct n as [[[a b] m] r]. cbn [add_counts]. now rewrite !Z.add_0_r.
Qed.

Lemma add_counts_zero_l (n : counts) : add_counts (0, 0, 0, 0) n = n.
Proof. now destruct n as [[[a b] m] r]. Qed.

Section LogTally.

Context (c : constants).

(** Banners leave the summary as it is. *)
Lemma banners_skipped (lines : list string) :
  forall s, forallb (is_banner c) lines = true ->
  for_each lines (LogParser.parse_log_line c) s = Ok s.
Proof.
  induction lines as [| line lines IH]; intros s; cbn [forallb for_each];
    [reflexivity |].
  intros H. apply andb_true_iff in H as [Hline Hrest].
  rewrite (parse_log_line_banner c s line Hline). cbn [bind]. now apply IH.
Qed.

Lemma banners_filtered (lines : list string) :
  forall s,
  for_each (filter (fun line => negb (is_banner c line)) lines)
           (LogParser.parse_log_line c) s =
  for_each lines (LogParser.parse_log_line c) s.
Proof.
  induction lines as [| line lines IH]; intros s; cbn [filter for_each];
    [reflexivity |].
  destruct (is_banner c line) eqn:Hline; cbn [negb for_each].
  - rewrite (parse_log_line_banner c s line Hline). cbn [bind]. apply IH.
  - destruct (LogParser.parse_log_line c s line); cbn [bind];
      [apply IH | reflexivity].
Qed.

(** A line without its two fields stops the aggregation. *)
Lemma parse_log_line_no_fields (s : dict LogParser.day_summary)
    (line : string) :
  is_banner c line = false -> fields line = None ->
  LogParser.parse_log_line c s line = Raise IndexError.
Proof.
  intros Hbanner Hfields. apply parse_log_line_unseparated; [exact Hbanner |].
  destruct (contains "-" line) eqn:Hsep; [| reflexivity].
  destruct (fields_separated line Hsep) as (date & message & H). congruence.
Qed.

Hypothesis Hmarkers : distinct (error_markers c) = true.
Hypothesis Hsummary : distinct (summary_keys c) = true.

Lemma counts_at_unique (s : dict LogParser.day_summary) (date : string)
    (n n' : counts) :
  counts_at c s date n -> counts_at c s date n' -> n = n'.
Proof.
  unfold counts_at. destruct (find date s) as [day |].
  - intros -> H. now apply day_of_injective in H.
  - congruence.
Qed.

Lemma counts_at_exists (s : dict LogParser.day_summary) (date : string) :
  Forall (fun item => exists n, snd item = day_of c n) s ->
  exists n, counts_at c s date n.
Proof.
  intros Hs. unfold counts_at.
  destruct (find date s) as [day |] eqn:Hday; [| eauto].
  apply find_In in Hday. rewrite Forall_forall in Hs.
  exact (Hs _ Hday).
Qed.

(** The effect of the lines on a summary whose days hold four counts:
    the counts of every date grow by the tally of the lines, the dates of
    the lines are there, and new dates come last, in their order. *)
Lemma lines_tallied (lines : list string) :
  forall s s',
  Forall (fun item => exists n, snd item = day_of c n) s ->
  for_each lines (LogParser.parse_log_line c) s = Ok s' ->
  (forall date m, counts_at c s date m ->
                  counts_at c s' date (add_counts m (tally c lines date)))
  /\ (forall date, mem date s' = mem date s || dated c lines date)
  /\ map fst s' = first_seen c (map fst s) lines.
Proof.
  induction lines as [| line lines IH]; intros s s' Hs;
    cbn [for_each tally dated existsb first_seen].
  { intros H. inversion H. subst s'. repeat split.
    - intros date m Hm. now rewrite add_counts_zero_r.
    - intros date. now rewrite orb_false_r. }
  unfold line_counts, line_date.
  destruct (is_banner c line) eqn:Hbanner.
  { rewrite (parse_log_line_banner c s line Hbanner). cbn [bind].
    intros Hrest. destruct (IH s s' Hs Hrest) as (Hcounts & Hmem & Horder).
    repeat split.
    - intros date m Hm. rewrite add_counts_zero_l. now apply Hcounts.
    - exact Hmem.
    - exact Horder. }
  destruct (fields line) as [[date0 message] |] eqn:Hfields.
  2: { now rewrite (parse_log_line_no_fields s line Hbanner Hfields). }
  destruct (counts_at_exists s date0 Hs) as (n & Hn).
  rewrite (parse_log_line_counted c Hmarkers Hsummary s line date0 message n
             Hbanner Hfields Hn).
  cbn [bind]. intros Hrest.
  set (s1 := setitem s date0 (day_of c (add_counts n (hits c message)))) in *.
  assert (Hs1 : Forall (fun item => exists n, snd item = day_of c n) s1).
  { apply (Forall_setitem (fun day => exists n, day = day_of c n));
      [exact Hs | eauto]. }
  destruct (IH s1 s' Hs1 Hrest) as (Hcounts & Hmem & Horder).
  repeat split.
  - intros date m Hm. rewrite add_counts_assoc. apply Hcounts.
    unfold counts_at, s1.
    destruct (String.eqb_spec date0 date) as [<- | Hne].
    + rewrite find_setitem_same.
      now rewrite (counts_at_unique s date0 m n Hm Hn).
    + rewrite find_setitem_other
        by (apply String.eqb_neq; congruence).
      rewrite add_counts_zero_r. exact Hm.
  - intros date. rewrite Hmem. unfold s1. rewrite mem_setitem.
    now rewrite orb_assoc.
  - rewrite Horder. unfold s1. rewrite map_fst_setitem, <- mem_existsb.
    now destruct (mem date0 s).
Qed.

End LogTally.

(** X12. A log made of banner lines only (the empty log among them) gives
    the empty summary. *)
Theorem banners_give_empty_summary (c : constants) (log : string)
    (Hbanners : forallb (is_banner c) (splitlines log) = true) :
  LogParser.parse_log c log = Ok [].
Proof. now apply banners_skipped. Qed.

Lemma banners_give_empty_summary_witness :
  LogParser.parse_log sample_constants sample_banner_log = Ok []
  /\ LogParser.parse_log sample_constants "" = Ok [].
Proof.
  split.
  - exact (banners_give_empty_summary sample_constants sample_banner_log
             eq_refl).
  - exact (banners_give_empty_summary sample_constants "" eq_refl).
Defined.

(** X13. Banner lines play no part: a log and the same log without its
    banner lines give the same outcome, summary or exception. *)
Theorem banners_are_transparent (c : constants) (log log' : string)
    (Hlines : splitlines log' =
              filter (fun line => negb (is_banner c line)) (splitlines log)) :
  LogParser.parse_log c log' = LogParser.parse_log c log.
Proof.
  unfold LogParser.parse_log. rewrite Hlines. apply banners_filtered.
Qed.

Lemma banners_are_transparent_witness :
  LogParser.parse_log sample_constants
    ("06/02/2020@09:00:00-Unable to reach modem" ++ newline ++
     "06/01/2020@10:00:00-Packet loss above acceptable level" ++ newline ++
     "06/02/2020@11:00:00-Unable to reach modem" ++ newline ++
     "06/03/2020@11:00:00-All good" ++ newline) =
  LogParser.parse_log sample_constants sample_mixed_log.
Proof.
  exact (banners_are_transparent sample_constants sample_mixed_log
           ("06/02/2020@09:00:00-Unable to reach modem" ++ newline ++
            "06/01/2020@10:00:00-Packet loss above acceptable level"
              ++ newline ++
            "06/02/2020@11:00:00-Unable to reach modem" ++ newline ++
            "06/03/2020@11:00:00-All good" ++ newline)
           eq_refl).
Defined.

(** X14. The counts of a returned summary are those of the log: for every
    date, each of the four counts of its day is the number of lines (no
    banners) with this date key whose message segment contains the marker
    of the category, and a date is in the summary exactly when some such
    line carries it, even when none of its lines has a marker. *)
Theorem summary_counts_lines (c : constants) (log : string)
    (s : dict LogParser.day_summary) (date : string)
    (Hmarkers : distinct (error_markers c) = true)
    (Hsummary : distinct (summary_keys c) = true)
    (Hrun : LogParser.parse_log c log = Ok s) :
  find date s =
  if dated c (splitlines log) date
  then Some (day_of c (tally c (splitlines log) date))
  else None.
Proof.
  destruct (lines_tallied c Hmarkers Hsummary (splitlines log) [] s
              (Forall_nil _) Hrun) as (Hcounts & Hmem & _).
  specialize (Hcounts date (0, 0, 0, 0) eq_refl).
  specialize (Hmem date). cbn [mem find orb] in Hmem.
  rewrite add_counts_zero_l in Hcounts.
  unfold counts_at in Hcounts. unfold mem in Hmem.
  destruct (find date s) as [day |]; rewrite <- Hmem; congruence.
Qed.

Lemma summary_counts_lines_witness :
  find "06/02/2020"
    [ ("06/02/2020", day_of sample_constants (0, 0, 2, 0));
      ("06/01/2020", day_of sample_constants (1, 0, 0, 0));
      ("06/03/2020", day_of sample_constants (0, 0, 0, 0)) ] =
  Some (day_of sample_constants (0, 0, 2, 0)).
Proof.
  exact (summary_counts_lines sample_constants sample_mixed_log _
           "06/02/2020" eq_refl eq_refl eq_refl).
Defined.

(** X15. The dates of a returned summary are the date keys of the lines
    of the log (no banners), each once, in the order in which the log
    first has them. *)
Theorem summary_dates_in_log_order (c : constants) (log : string)
    (s : dict LogParser.day_summary)
    (Hmarkers : distinct (error_markers c) = true)
    (Hsummary : distinct (summary_keys c) = true)
    (Hrun : LogParser.parse_log c log = Ok s) :
  map fst s = first_seen c [] (splitlines log).
Proof.
  exact (proj2 (proj2 (lines_tallied c Hmarkers Hsummary (splitlines log) []
                         s (Forall_nil _) Hrun))).
Qed.

Lemma summary_dates_in_log_order_witness :
  map fst
    [ ("06/02/2020", day_of sample_constants (0, 0, 2, 0));
      ("06/01/2020", day_of sample_constants (1, 0, 0, 0));
      ("06/03/2020", day_of sample_constants (0, 0, 0, 0)) ] =
  [ "06/02/2020"; "06/01/2020"; "06/03/2020" ].
Proof.
  exact (summary_dates_in_log_order sample_constants sample_mixed_log _
           eq_refl eq_refl eq_refl).
Defined.

(** X16. A blank line in the log stops the aggregation: when the two
    banners are not empty, a log with an empty line makes [parse_log]
    raise [IndexError]. *)
Theorem blank_line_is_fatal (c : constants) (log : string)
    (Hstarting : LOGGER_STARTING_LOG c <> "")
    (Hrunning : LOGGER_STATUS_CHECK_RUNNING_MESSAGE c <> "")
    (Hblank : In "" (splitlines log)) :
  LogParser.parse_log c log = Raise IndexError.
Proof.
  pose proof (lines_outcome c (splitlines log) [] (Forall_nil _)) as H.
  destruct (forallb (separated c) (splitlines log)) eqn:Hall; [| exact H].
  rewrite forallb_forall in Hall. specialize (Hall "" Hblank).
  unfold separated, is_banner in Hall.
  destruct (LOGGER_STARTING_LOG c); [contradiction |].
  destruct (LOGGER_STATUS_CHECK_RUNNING_MESSAGE c); [contradiction |].
  discriminate.
Qed.

Lemma blank_line_is_fatal_witness :
  LogParser.parse_log sample_constants sample_blank_log = Raise IndexError.
Proof.
  apply blank_line_is_fatal.
  - cbn. discriminate.
  - cbn. discriminate.
  - vm_compute. tauto.
Defined.

(* ===================================================================== *)
(** * The date key and the message segment of a line *)
(* ===================================================================== *)

(** The first field of [split] is the text before the separator, the
    second one the text between the first separator and the next. *)
Lemma hd_split (sep : ascii) (s : string) :
  hd "" (split sep s) = text_before sep s.
Proof.
  induction s as [| ch s IH]; cbn [split text_before]; [reflexivity |].
  destruct (Ascii.eqb ch sep); [reflexivity |].
  rewrite <- IH. now destruct (split sep s).
Qed.

Lemma second_split (sep : ascii) (s : string) :
  nth_error (split sep s) 1 = option_map (text_before sep) (text_after sep s).
Proof.
  induction s as [| ch s IH]; cbn [split text_after]; [reflexivity |].
  pose proof (split_nonempty sep s) as Hfield.
  destruct (Ascii.eqb ch sep).
  - cbn [option_map]. rewrite <- hd_split.
    destruct (split sep s); [contradiction | reflexivity].
  - rewrite <- IH. destruct (split sep s); [contradiction | reflexivity].
Qed.

Lemma fields_segments (line : string) :
  fields line =
  match message_segment line with
  | Some log_message => Some (date_key line, log_message)
  | None => None
  end.
Proof.
  unfold fields, message_segment, date_key.
  rewrite <- (second_split "-" line), <- !hd_split.
  pose proof (split_nonempty "-" line) as Hfield.
  destruct (split "-" line) as [| a [| b rest]];
    [contradiction | reflexivity | reflexivity].
Qed.

Lemma text_before_without (sep : ascii) (s : string) :
  contains (String sep "") s = false -> text_before sep s = s.
Proof.
  intros H. rewrite <- hd_split. now rewrite (split_without sep s H).
Qed.

Lemma text_before_app (sep : ascii) (a b : string) :
  contains (String sep "") a = false ->
  text_before sep (a ++ String sep b) = a.
Proof.
  intros H. rewrite <- hd_split. now rewrite (split_app sep a b H).
Qed.

Lemma text_after_app (sep : ascii) (a b : string) :
  contains (String sep "") a = false ->
  text_after sep (a ++ String sep b) = Some b.
Proof.
  induction a as [| ch a IH]; intros H.
  - cbn [append text_after]. now rewrite Ascii.eqb_refl.
  - rewrite contains_char in H. apply orb_false_iff in H as [Hch Ha].
    cbn [append text_after]. rewrite Ascii.eqb_sym, Hch. now apply IH.
Qed.

Lemma text_after_with (sep : ascii) (s : string) :
  contains (String sep "") s = true -> text_after sep s <> None.
Proof.
  induction s as [| ch s IH]; intros H; [discriminate |].
  rewrite contains_char in H. cbn [text_after].
  destruct (Ascii.eqb ch sep) eqn:Hch; [discriminate |].
  rewrite Ascii.eqb_sym, Hch in H. now apply IH.
Qed.

(** The two segments of a line [a-message], whatever follows a second
    ['-']. *)
Lemma segments_of_line (a message tail : string) :
  contains "-" a = false ->
  contains "-" message = false ->
  tail = "" \/ (exists rest, tail = "-" ++ rest) ->
  date_key (a ++ "-" ++ message ++ tail) = text_before "@" a
  /\ message_segment (a ++ "-" ++ message ++ tail) = Some message.
Proof.
  intros Ha Hmessage Htail. unfold date_key, message_segment.
  change (a ++ "-" ++ message ++ tail)
    with (a ++ String "-" (message ++ tail)).
  rewrite (text_before_app "-" a _ Ha), (text_after_app "-" a _ Ha).
  split; [reflexivity |]. cbn [option_map]. f_equal.
  destruct Htail as [-> | (rest & ->)].
  - rewrite append_empty. now apply text_before_without.
  - change ("-" ++ rest) with (String "-" rest).
    now apply text_before_app.
Qed.

Lemma line_counts_segments (c : constants) (line date : string) :
  line_counts c line date = segment_counts c line date.
Proof.
  unfold line_counts, segment_counts. rewrite fields_segments.
  destruct (is_banner c line); [reflexivity |].
  now destruct (message_segment line).
Qed.

Lemma tally_segments (c : constants) (lines : list string) (date : string) :
  tally c lines date = segment_tally c lines date.
Proof.
  induction lines as [| line lines IH]; cbn [tally segment_tally];
    [reflexivity |].
  now rewrite line_counts_segments, IH.
Qed.

Lemma dated_carries (c : constants) (lines : list string) (date : string) :
  forallb (separated c) lines = true ->
  dated c lines date = carries c lines date.
Proof.
  unfold dated, carries.
  induction lines as [| line lines IH]; cbn [forallb existsb];
    [reflexivity |].
  intros H. apply andb_true_iff in H as [Hline Hrest].
  rewrite (IH Hrest). f_equal.
  unfold line_date, separated in *. rewrite fields_segments.
  destruct (is_banner c line); cbn [negb andb orb] in *; [reflexivity |].
  unfold message_segment.
  pose proof (text_after_with "-" line Hline) as Hafter.
  destruct (text_after "-" line); [reflexivity | contradiction].
Qed.

Lemma add_counts_comm (n k : counts) : add_counts n k = add_counts k n.
Proof.
  destruct n as [[[a b] m] r], k as [[[a' b'] m'] r']. cbn [add_counts].
  now rewrite (Z.add_comm a), (Z.add_comm b), (Z.add_comm m),
    (Z.add_comm r).
Qed.

Lemma tally_app (c : constants) (l1 l2 : list string) (date : string) :
  tally c (l1 ++ l2) date = add_counts (tally c l1 date) (tally c l2 date).
Proof.
  induction l1 as [| line l1 IH]; cbn [app tally].
  - now rewrite add_counts_zero_l.
  - now rewrite IH, add_counts_assoc.
Qed.

(** The counts of a log and those of the log without one of its lines. *)
Lemma tally_without (c : constants) (front back : list string)
    (line date : string) :
  tally c (front ++ line :: back) date =
  add_counts (tally c (front ++ back) date) (line_counts c line date).
Proof.
  rewrite !tally_app. cbn [tally].
  rewrite (add_counts_comm (line_counts c line date)).
  now rewrite !add_counts_assoc.
Qed.

(** [parse_log] sees of a line its banner, its date key and its message
    segment only. *)
Lemma parse_log_line_segments (c : constants)
    (s : dict LogParser.day_summary) (line line' : string) :
  same_segments c line line' ->
  LogParser.parse_log_line c s line' = LogParser.parse_log_line c s line.
Proof.
  intros (Hbanner & Hdate & Hmessage).
  pose proof (fields_segments line) as Hfields.
  pose proof (fields_segments line') as Hfields'.
  rewrite <- Hdate, <- Hmessage in Hfields'.
  destruct (is_banner c line) eqn:B; symmetry in Hbanner.
  - now rewrite !parse_log_line_banner.
  - destruct (message_segment line) as [log_message |].
    + now rewrite (parse_log_line_fields c s line _ _ B Hfields),
        (parse_log_line_fields c s line' _ _ Hbanner Hfields').
    + now rewrite (parse_log_line_no_fields c s line B Hfields),
        (parse_log_line_no_fields c s line' Hbanner Hfields').
Qed.

Lemma lines_segments (c : constants) (lines lines' : list string) :
  Forall2 (same_segments c) lines lines' ->
  forall s,
  for_each lines' (LogParser.parse_log_line c) s =
  for_each lines (LogParser.parse_log_line c) s.
Proof.
  induction 1 as [| line line' lines lines' Hline _ IH]; intros s;
    cbn [for_each]; [reflexivity |].
  rewrite (parse_log_line_segments c s line line' Hline).
  destruct (LogParser.parse_log_line c s line); cbn [bind];
    [apply IH | reflexivity].
Qed.

(** A log with a summary has a ['-'] in every line that is no banner. *)
Lemma parse_log_separated (c : constants) (log : string)
    (s : dict LogParser.day_summary) :
  LogParser.parse_log c log = Ok s ->
  forallb (separated c) (splitlines log) = true.
Proof.
  unfold LogParser.parse_log. intros Hrun.
  pose proof (lines_outcome c (splitlines log) [] (Forall_nil _)) as H.
  destruct (forallb (separated c) (splitlines log)); [reflexivity |].
  congruence.
Qed.

Section LogSegments.

Context (c : constants).
Hypothesis Hmarkers : distinct (error_markers c) = true.
Hypothesis Hsummary : distinct (summary_keys c) = true.

(** The counts of a date in the summary of a log. *)
Lemma parse_log_counts (log : string) (s : dict LogParser.day_summary)
    (date : string) :
  LogParser.parse_log c log = Ok s ->
  counts_at c s date (tally c (splitlines log) date)
  /\ mem date s = dated c (splitlines log) date.
Proof.
  intros Hrun.
  destruct (lines_tallied c Hmarkers Hsummary (splitlines log) [] s
              (Forall_nil _) Hrun) as (Hcounts & Hmem & _).
  split.
  - rewrite <- (add_counts_zero_l (tally c (splitlines log) date)).
    now apply Hcounts.
  - exact (Hmem date).
Qed.

Lemma parse_log_tallied (log : string) (s : dict LogParser.day_summary)
    (date : string) :
  LogParser.parse_log c log = Ok s ->
  find date s =
  if carries c (splitlines log) date
  then Some (day_of c (segment_tally c (splitlines log) date))
  else None.
Proof.
  intros Hrun.
  destruct (parse_log_counts log s date Hrun) as (Hcounts & Hmem).
  rewrite (dated_carries c _ date (parse_log_separated c log s Hrun)) in Hmem.
  rewrite tally_segments in Hcounts.
  unfold counts_at in Hcounts. unfold mem in Hmem.
  destruct (find date s) as [day |]; rewrite <- Hmem; congruence.
Qed.

End LogSegments.

(** C7, the claim as stated fails: a line without ['-'] between two well
    formed lines makes [parse_log] raise [IndexError]; no summary of the
    other lines is returned. *)
Lemma C7_counterexample :
  LogParser.parse_log sample_constants sample_broken_log = Raise IndexError.
Proof. reflexivity. Qed.

(** C7, amended. A line that is no banner and has no ['-'] is fatal to the
    whole aggregation: [parse_log] raises [IndexError] and returns no
    summary, whatever the other lines are; it returns a summary exactly
    when every such line has a ['-']. A line that lacks the ['@'] only is
    neither flagged nor skipped: in the summary [parse_log] returns (the
    markers and the summary keys being pairwise distinct), all the text
    before the first ['-'] of such a line is a date key, and its counts
    are those of the lines of the log with this date key, this line among
    them. *)
Theorem C7_unseparated_line_fatal (c : constants) (log : string) :
  (forallb (separated c) (splitlines log) = true ->
   exists s, LogParser.parse_log c log = Ok s)
  /\ (forallb (separated c) (splitlines log) = false ->
      LogParser.parse_log c log = Raise IndexError)
  /\ (forall (s : dict LogParser.day_summary) (line : string),
        distinct (error_markers c) = true ->
        distinct (summary_keys c) = true ->
        LogParser.parse_log c log = Ok s ->
        In line (splitlines log) ->
        is_banner c line = false ->
        contains "@" (text_before "-" line) = false ->
        find (text_before "-" line) s =
        Some (day_of c (segment_tally c (splitlines log)
                          (text_before "-" line)))).
Proof.
  split; [| split].
  - intros E.
    pose proof (lines_outcome c (splitlines log) [] (Forall_nil _)) as H.
    unfold LogParser.parse_log. now rewrite E in H.
  - intros E.
    pose proof (lines_outcome c (splitlines log) [] (Forall_nil _)) as H.
    unfold LogParser.parse_log. now rewrite E in H.
  - intros s line Hmarkers Hsummary Hrun Hline Hbanner Hat.
    rewrite (parse_log_tallied c Hmarkers Hsummary log s _ Hrun).
    replace (carries c (splitlines log) (text_before "-" line)) with true;
      [reflexivity |].
    symmetry. unfold carries. apply existsb_exists. exists line.
    split; [exact Hline |].
    unfold date_key. rewrite Hbanner, (text_before_without "@" _ Hat).
    now rewrite String.eqb_refl.
Qed.

Lemma C7_witness :
  LogParser.parse_log sample_constants sample_broken_log = Raise IndexError
  /\ find "06/01/2020 10:05:00"
       [ ("06/01/2020", day_of sample_constants (1, 0, 0, 0));
         ("06/01/2020 10:05:00", day_of sample_constants (0, 0, 1, 0)) ] =
     Some (day_of sample_constants (0, 0, 1, 0)).
Proof.
  split.
  - apply (proj1 (proj2 (C7_unseparated_line_fatal sample_constants
                           sample_broken_log))).
    reflexivity.
  - apply (proj2 (proj2 (C7_unseparated_line_fatal sample_constants
                           sample_no_at_log))
             [ ("06/01/2020", day_of sample_constants (1, 0, 0, 0));
               ("06/01/2020 10:05:00", day_of sample_constants (0, 0, 1, 0)) ]
             "06/01/2020 10:05:00-Unable to reach modem").
    + reflexivity.
    + reflexivity.
    + reflexivity.
    + vm_compute. tauto.
    + reflexivity.
    + reflexivity.
Defined.

(** C8, the claim as stated fails: a marker that comes after a second
    ['-'] of the line is in the rest of the line but is not counted. *)
Lemma C8_counterexample :
  contains (PACKET_LOSS_ERROR sample_constants)
    "www.google.com - Packet loss above acceptable level" = true
  /\ LogParser.parse_log sample_constants sample_dashed_line =
     Ok [ ("06/01/2020",
           [ ("packet_loss", 0); ("rtt", 0); ("modem", 0); ("router", 0) ]) ].
Proof. split; reflexivity. Qed.

(** C8, amended. [parse_log] splits every line that is no banner at every
    ['-']: the date key of the line is what precedes ['@'] in the text
    before its first ['-'], and its message segment is the text between
    its first and its second ['-'] (the rest of the line only when it has
    no second ['-']). In the summary [parse_log] returns for a log (the
    markers and the summary keys being pairwise distinct), a date is there
    exactly when it is the date key of a line, and each of its four counts
    is the number of lines with this date key whose message segment
    contains the marker of the category. What follows the second ['-'] of
    a line plays no part: two logs whose lines agree, one by one, on being
    a banner, on the date key and on the message segment have the same
    outcome. *)
Theorem C8_message_between_dashes (c : constants) (log : string) :
  (forall (s : dict LogParser.day_summary) (date : string),
     distinct (error_markers c) = true ->
     distinct (summary_keys c) = true ->
     LogParser.parse_log c log = Ok s ->
     find date s =
     if carries c (splitlines log) date
     then Some (day_of c (segment_tally c (splitlines log) date))
     else None)
  /\ (forall log' : string,
        Forall2 (same_segments c) (splitlines log) (splitlines log') ->
        LogParser.parse_log c log' = LogParser.parse_log c log).
Proof.
  split.
  - intros s date Hmarkers Hsummary Hrun.
    now apply parse_log_tallied.
  - intros log' Hlines. unfold LogParser.parse_log.
    now apply lines_segments.
Qed.

Lemma C8_witness :
  find "06/01/2020"
    [ ("06/01/2020",
       [ ("packet_loss", 0); ("rtt", 0); ("modem", 0); ("router", 0) ]) ] =
  Some [ ("packet_loss", 0); ("rtt", 0); ("modem", 0); ("router", 0) ]
  /\ LogParser.parse_log sample_constants sample_dashed_line' =
     LogParser.parse_log sample_constants sample_dashed_line.
Proof.
  split.
  - exact (proj1 (C8_message_between_dashes sample_constants
                    sample_dashed_line)
             [ ("06/01/2020",
                [ ("packet_loss", 0); ("rtt", 0); ("modem", 0);
                  ("router", 0) ]) ]
             "06/01/2020" eq_refl eq_refl eq_refl).
  - apply (proj2 (C8_message_between_dashes sample_constants
                    sample_dashed_line) sample_dashed_line').
    constructor; [| constructor].
    unfold same_segments.
    split; [vm_compute; reflexivity |].
    split; vm_compute; reflexivity.
Defined.

(** C10, the claim as stated fails: of two markers in the text after the
    first ['-'] of a line, the one that comes after a second ['-'] is not
    counted. *)
Lemma C10_counterexample :
  text_after "-" sample_split_markers_line =
  Some "Packet loss above acceptable level - Unable to reach modem"
  /\ contains (PACKET_LOSS_ERROR sample_constants)
       "Packet loss above acceptable level - Unable to reach modem" = true
  /\ contains (MODEM_ERROR sample_constants)
       "Packet loss above acceptable level - Unable to reach modem" = true
  /\ LogParser.parse_log sample_constants sample_split_markers_line =
     Ok [ ("06/01/2020",
           [ ("packet_loss", 1); ("rtt", 0); ("modem", 0); ("router", 0) ]) ].
Proof. repeat split; reflexivity. Qed.

(** C10, amended. [parse_log] looks for each of the four markers on its
    own in the message segment of every line that is no banner, the
    segment being the text between the first and the second ['-'] of the
    line: against the summary of the same log without this line, where the
    date key of the line has the counts [n] (zeros when it is not there),
    the summary of the log has for this date key the counts [n], each one
    raised by one when the segment contains the marker of its category. So
    a segment with two markers or more raises as many counts; one marker
    found does not end the scan. The markers and the summary keys are
    pairwise distinct. *)
Theorem C10_every_marker_counted (c : constants) (log log0 : string)
    (front back : list string) (line message : string)
    (s s0 : dict LogParser.day_summary) (n : counts)
    (Hmarkers : distinct (error_markers c) = true)
    (Hsummary : distinct (summary_keys c) = true)
    (Hlines : splitlines log = (front ++ line :: back)%list)
    (Hlines0 : splitlines log0 = (front ++ back)%list)
    (Hbanner : is_banner c line = false)
    (Hmessage : message_segment line = Some message)
    (Hrun : LogParser.parse_log c log = Ok s)
    (Hrun0 : LogParser.parse_log c log0 = Ok s0)
    (Hn : counts_at c s0 (date_key line) n) :
  find (date_key line) s =
  Some (day_of c
          ( fst (fst (fst n))
              + Z_of_bool (contains (PACKET_LOSS_ERROR c) message),
            snd (fst (fst n))
              + Z_of_bool (contains (ROUND_TRIP_TIME_ERROR c) message),
            snd (fst n)
              + Z_of_bool (contains (MODEM_ERROR c) message),
            snd n
              + Z_of_bool (contains (LOCAL_ROUTER_ERROR c) message) )).
Proof.
  destruct (parse_log_counts c Hmarkers Hsummary log s (date_key line) Hrun)
    as (Hcounts & Hmem).
  destruct (parse_log_counts c Hmarkers Hsummary log0 s0 (date_key line)
              Hrun0) as (Hcounts0 & _).
  pose proof (counts_at_unique c s0 _ _ _ Hn Hcounts0) as En.
  pose proof (fields_segments line) as Hfields. rewrite Hmessage in Hfields.
  assert (Hline : line_counts c line (date_key line) = hits c message).
  { unfold line_counts. now rewrite Hbanner, Hfields, String.eqb_refl. }
  assert (Hdated : dated c (splitlines log) (date_key line) = true).
  { unfold dated. apply existsb_exists. exists line. split.
    - rewrite Hlines. apply in_or_app. right. now left.
    - unfold line_date. rewrite Hbanner, Hfields. apply String.eqb_refl. }
  rewrite Hlines, tally_without, <- Hlines0, <- En, Hline in Hcounts.
  rewrite Hdated in Hmem. unfold mem in Hmem. unfold counts_at in Hcounts.
  destruct (find (date_key line) s) as [day |]; [| discriminate].
  subst day. destruct n as [[[a b] m] r]. reflexivity.
Qed.

Lemma C10_witness :
  find "06/01/2020"
    [ ("06/01/2020",
       [ ("packet_loss", 2); ("rtt", 0); ("modem", 1); ("router", 0) ]);
      ("06/02/2020",
       [ ("packet_loss", 0); ("rtt", 0); ("modem", 1); ("router", 0) ]) ] =
  Some [ ("packet_loss", 2); ("rtt", 0); ("modem", 1); ("router", 0) ].
Proof.
  exact (C10_every_marker_counted sample_constants
           sample_double_log sample_double_log_without
           [ "06/01/2020@09:00:00-Packet loss above acceptable level" ]
           [ "06/02/2020@10:00:00-Unable to reach modem" ]
           sample_double_line
           "Packet loss above acceptable level, Unable to reach modem"
           [ ("06/01/2020",
              [ ("packet_loss", 2); ("rtt", 0); ("modem", 1);
                ("router", 0) ]);
             ("06/02/2020",
              [ ("packet_loss", 0); ("rtt", 0); ("modem", 1);
                ("router", 0) ]) ]
           [ ("06/01/2020",
              [ ("packet_loss", 1); ("rtt", 0); ("modem", 0);
                ("router", 0) ]);
             ("06/02/2020",
              [ ("packet_loss", 0); ("rtt", 0); ("modem", 1);
                ("router", 0) ]) ]
           (1, 0, 0, 0)
           eq_refl eq_refl eq_refl eq_refl eq_refl eq_refl eq_refl eq_refl
           eq_refl).
Defined.
